(** * AuthClient: the browser-side authentication client

  A shallow embedding of [client/src/components/AuthClient.ts]: the
  module-level user cache [_user], the request wrappers
  [postAuthRequest], [postLoginCredentials] and [friendlyFetch], and the
  operations exported through [Client].

  Asynchronous functions are embedded as programs of a small free monad
  whose nodes are the effects the module performs (reading and writing
  the cache, calling [fetch], reading a response body, logging to the
  console, starting a promise that nobody awaits).  An interpreter runs a
  program against a network oracle and records every effect in a trace. *)

From Stdlib Require Import String Ascii List ZArith Lia Bool.
From Stdlib Require Import DecimalString.
#[local] Set Warnings "-register-all".
From ExtLib Require Import Structures.Monad.
Import ListNotations.
Import MonadNotation.
Local Open Scope string_scope.
Local Open Scope monad_scope.

(* ===================================================================== *)
(** ** JavaScript values and the platform functions the module calls *)
(* ===================================================================== *)

Module Js.

(** What [response.json()] does with the body: a value, or a rejection
    with the parser's message. *)
Inductive Parsed (V : Type) : Type :=
| Json (v : V)
| Unparseable (message : string).
Arguments Json {V} v.
Arguments Unparseable {V} message.

(** A value of type [any].  Numbers are restricted to the integer-valued
    ones (the status codes); objects keep their keys in insertion order,
    with one binding per key as [JSON.parse] leaves them.  [VResponse] is
    a [Response] object of the Fetch API, flattened to the three things
    this module can observe of it: its [ok] flag, its [type] property and
    the outcome of [json()]. *)
Inductive Value : Type :=
| VUndefined
| VNull
| VBool (b : bool)
| VNum (n : Z)
| VStr (s : string)
| VArr (items : list Value)
| VObj (fields : list (string * Value))
| VResponse (ok : bool) (type : string) (body : Parsed Value).

Record Response : Type := mkResponse {
  ok : bool;
  type : string;
  json : Parsed Value;
}.

Definition ofResponse (r : Response) : Value :=
  VResponse (ok r) (type r) (json r).

(** [!!v] *)
Definition truthy (v : Value) : bool :=
  match v with
  | VUndefined | VNull => false
  | VBool b => b
  | VNum n => negb (n =? 0)%Z
  | VStr s => negb (s =? "")
  | VArr _ | VObj _ | VResponse _ _ _ => true
  end.

Fixpoint lookup (k : string) (fields : list (string * Value)) : Value :=
  match fields with
  | [] => VUndefined
  | (k', v) :: rest => if k =? k' then v else lookup k rest
  end.

(** Modelled from the spec: the [NetworkError] class of [error-reporting],
    which is not part of the sources at hand.  The spec has the message of
    a network failure end up in the [error] field of a result, so a
    [NetworkError] is an instance of [Error] whose [message] is the one it
    is built with.  The other classes are the platform's. *)
Inductive ErrorClass : Type :=
| PlainError | TypeError | SyntaxError | URIError | NetworkError.

(** What a [throw] or a rejection carries: an instance of [Error], or
    anything else. *)
Inductive Thrown : Type :=
| AnError (cls : ErrorClass) (message : string)
| NotAnError.

(** [e instanceof Error] together with [e.message]. *)
Definition errorMessage (e : Thrown) : option string :=
  match e with
  | AnError _ m => Some m
  | NotAnError => None
  end.

(** [v[k]] for the keys this module reads ([email], [verified], [id],
    [type], [subscriptions], [subscription_limit], [status_code],
    [status_text]): a property of [undefined] or [null] throws, an object
    answers from its fields, a [Response] has [type] and none of the
    others, and the remaining values have none of them. *)
Definition getProp (v : Value) (k : string) : Thrown + Value :=
  match v with
  | VUndefined =>
      inl (AnError TypeError
             ("Cannot read properties of undefined (reading '" ++ k ++ "')"))
  | VNull =>
      inl (AnError TypeError
             ("Cannot read properties of null (reading '" ++ k ++ "')"))
  | VObj fields => inr (lookup k fields)
  | VResponse o t _ =>
      inr (if k =? "type" then VStr t
           else if k =? "ok" then VBool o else VUndefined)
  | VBool _ | VNum _ | VStr _ | VArr _ => inr VUndefined
  end.

Definition indexKey (i : nat) : string :=
  NilEmpty.string_of_uint (Nat.to_uint i).

Fixpoint indexed (i : nat) (items : list Value) : list (string * Value) :=
  match items with
  | [] => []
  | v :: rest => (indexKey i, v) :: indexed (S i) rest
  end.

(** A JavaScript string is held as the bytes of its WTF-8 form: UTF-8,
    with a surrogate that has no partner written as the three bytes of
    its code unit ([ED A0..BF xx]); a surrogate with its partner is never
    written so, the pair being the four bytes of its character.  The
    functions below read a string by UTF-16 code unit, as the platform
    does. *)
Definition byte (c : ascii) : N := N_of_ascii c.

Definition text (bytes : list N) : string :=
  string_of_list_ascii (map ascii_of_N bytes).

(** The three bytes of one code unit above [07FF]. *)
Definition unit3 (u : N) : string :=
  text [224 + u / 4096; 128 + (u / 64) mod 64; 128 + u mod 64]%N.

(** The two surrogates of the character written in the four bytes
    [a b c d], each as a string of one code unit. *)
Definition surrogates (a b c d : ascii) : list Value :=
  let point := ((byte a mod 8) * 262144 + (byte b mod 64) * 4096
                + (byte c mod 64) * 64 + byte d mod 64)%N in
  let offset := (point - 65536)%N in
  [VStr (unit3 (55296 + offset / 1024)%N); VStr (unit3 (56320 + offset mod 1024)%N)].

(** The code units of a string, each as a string of its own: a character
    of one, two or three bytes is one unit, a character of four bytes is
    two. *)
Fixpoint chars (s : string) : list Value :=
  match s with
  | EmptyString => []
  | String a rest =>
      if (byte a <? 192)%N then VStr (String a EmptyString) :: chars rest
      else if (byte a <? 224)%N then
        match rest with
        | String b rest' => VStr (String a (String b EmptyString)) :: chars rest'
        | EmptyString => [VStr (String a EmptyString)]
        end
      else if (byte a <? 240)%N then
        match rest with
        | String b (String c rest') =>
            VStr (String a (String b (String c EmptyString))) :: chars rest'
        | _ => [VStr (String a rest)]
        end
      else
        match rest with
        | String b (String c (String d rest')) => (surrogates a b c d ++ chars rest')%list
        | _ => [VStr (String a rest)]
        end
  end.

(** [{ ...s }]: a fresh object holding the own enumerable properties. *)
Definition spread (s : Value) : Value :=
  match s with
  | VObj fields => VObj fields
  | VArr items => VObj (indexed 0 items)
  | VStr str => VObj (indexed 0 (chars str))
  | VUndefined | VNull | VBool _ | VNum _ | VResponse _ _ _ => VObj []
  end.

(** A capital of the ASCII letters made small, any other byte kept. *)
Definition lowerAscii (c : ascii) : ascii :=
  let n := nat_of_ascii c in
  if andb (65 <=? n)%nat (n <=? 90)%nat then ascii_of_nat (n + 32) else c.

Fixpoint asciiLower (s : string) : string :=
  match s with
  | EmptyString => EmptyString
  | String c rest => String (lowerAscii c) (asciiLower rest)
  end.

Fixpoint asciiOnly (s : string) : bool :=
  match s with
  | EmptyString => true
  | String c rest => (byte c <? 128)%N && asciiOnly rest
  end.

(** What the module takes from the platform without this development
    looking inside: [String.prototype.toLowerCase], with the case tables
    of Unicode behind it, and the wording of the engine's [URIError].
    Of [toLowerCase] two facts are used, both true of every engine: what
    it does to a string of ASCII characters, and that it maps no
    character to nothing.  Every statement about the client holds for
    any platform. *)
Class Platform : Type := {
  toLowerCase : string -> string;
  (** Of the ASCII characters it changes the capitals only. *)
  toLowerCase_ascii : forall s, asciiOnly s = true -> toLowerCase s = asciiLower s;
  (** No character is mapped to nothing. *)
  toLowerCase_nonempty : forall s, toLowerCase s = EmptyString -> s = EmptyString;
  (** The message of the [URIError] of [encodeURIComponent]. *)
  malformedURI : string
}.

(** The string has a surrogate without its partner. *)
Fixpoint unpairedSurrogate (s : string) : bool :=
  match s with
  | EmptyString => false
  | String a rest =>
      match rest with
      | String b _ => ((byte a =? 237)%N && (160 <=? byte b)%N) || unpairedSurrogate rest
      | EmptyString => false
      end
  end.

(** The bytes of a string escaped for a URI component: letters, digits
    and [- _ . ! ~ * ' ( )] are kept, every other byte becomes [%XX]. *)
Definition unreserved (c : ascii) : bool :=
  let n := nat_of_ascii c in
  (orb (andb (65 <=? n) (n <=? 90))
  (orb (andb (97 <=? n) (n <=? 122))
  (orb (andb (48 <=? n) (n <=? 57))
       (existsb (Nat.eqb n) [45; 95; 46; 33; 126; 42; 39; 40; 41]))))%nat.

Definition hexDigit (n : nat) : ascii :=
  if (n <? 10)%nat then ascii_of_nat (48 + n) else ascii_of_nat (55 + n).

Definition percent (c : ascii) : string :=
  let n := nat_of_ascii c in
  String "%" (String (hexDigit (n / 16)) (String (hexDigit (n mod 16)) EmptyString)).

Fixpoint percentEncode (s : string) : string :=
  match s with
  | EmptyString => EmptyString
  | String c rest =>
      (if unreserved c then String c EmptyString else percent c)
        ++ percentEncode rest
  end.

(** What [encodeURIComponent] throws on a surrogate without its partner. *)
Definition uriMalformed {platform : Platform} : Thrown := AnError URIError malformedURI.

(** [encodeURIComponent]: the UTF-8 bytes of the string, escaped; a
    [URIError] if the string has an unpaired surrogate. *)
Definition encodeURIComponent {platform : Platform} (s : string) : Thrown + string :=
  if unpairedSurrogate s then inl uriMalformed else inr (percentEncode s).

(** [`${x}`] for a value that is a string or [null]
    (what [URLSearchParams.get] returns). *)
Definition interpolate (x : option string) : string :=
  match x with
  | Some s => s
  | None => "null"
  end.

Fixpoint join (sep : string) (parts : list string) : string :=
  match parts with
  | [] => ""
  | [p] => p
  | p :: rest => p ++ sep ++ join sep rest
  end.

End Js.

(* ===================================================================== *)
(** ** Collaborators declared outside this module *)
(* ===================================================================== *)

Module StateMachine.

(** Modelled from the spec: the [JustfixUser] type of [state-machine],
    which is not part of the sources at hand.  The spec gives a user an
    email, a verified flag, an id, a type, a list of subscriptions and a
    subscription limit; [fetchUser] fills the six fields with whatever
    the authentication check carries, so all but [subscriptions] (always
    an array there) hold a value of type [any]. *)
Record JustfixUser : Type := mkUser {
  email : Js.Value;
  verified : Js.Value;
  id : Js.Value;
  type : Js.Value;
  subscriptions : list Js.Value;
  subscriptionLimit : Js.Value;
}.

End StateMachine.

(* ===================================================================== *)
(** ** Asynchronous programs *)
(* ===================================================================== *)

Module Async.
Import Js.
Import StateMachine.

(** The second argument of [fetch]. *)
Record RequestInit : Type := mkInit {
  method : string;
  mode : string;
  body : option string;
  headers : list (string * string);
  credentials : option string;
}.

Record Request : Type := mkRequest {
  url : string;
  init : RequestInit;
}.

(** How a call of [fetch] ends. *)
Inductive FetchOutcome : Type :=
| Responds (r : Response)
| Fails (e : Thrown).

(** The body of an [async] function.  [AwaitFetch] and [AwaitJson] are
    the points where it is suspended on the network; [Detach] calls an
    asynchronous function and drops the promise it returns. *)
Inductive Prog (A : Type) : Type :=
| Return (a : A)
| Throw (e : Thrown)
| ReadUser (k : option JustfixUser -> Prog A)
| WriteUser (u : option JustfixUser) (k : Prog A)
| QueryParam (name : string) (k : option string -> Prog A)
| AwaitFetch (req : Request) (k : FetchOutcome -> Prog A)
| AwaitJson (r : Response) (k : Parsed Value -> Prog A)
| ConsoleLog (r : Response) (k : Prog A)
| Detach (p : Prog unit) (k : Prog A).

Arguments Return {A} a.
Arguments Throw {A} e.
Arguments ReadUser {A} k.
Arguments WriteUser {A} u k.
Arguments QueryParam {A} name k.
Arguments AwaitFetch {A} req k.
Arguments AwaitJson {A} r k.
Arguments ConsoleLog {A} r k.
Arguments Detach {A} p k.

Fixpoint bind {A B : Type} (p : Prog A) (f : A -> Prog B) : Prog B :=
  match p with
  | Return a => f a
  | Throw e => Throw e
  | ReadUser k => ReadUser (fun u => bind (k u) f)
  | WriteUser u k => WriteUser u (bind k f)
  | QueryParam name k => QueryParam name (fun v => bind (k v) f)
  | AwaitFetch req k => AwaitFetch req (fun o => bind (k o) f)
  | AwaitJson r k => AwaitJson r (fun o => bind (k o) f)
  | ConsoleLog r k => ConsoleLog r (bind k f)
  | Detach q k => Detach q (bind k f)
  end.

#[export] Instance Monad_Prog : Monad Prog :=
  {| ret := @Return; Monad.bind := @bind |}.

(** [try { p } catch (e) { handler e }]; a rejection of a detached
    promise is not seen by the [try] around the call. *)
Fixpoint try_catch {A : Type} (p : Prog A) (handler : Thrown -> Prog A) : Prog A :=
  match p with
  | Return a => Return a
  | Throw e => handler e
  | ReadUser k => ReadUser (fun u => try_catch (k u) handler)
  | WriteUser u k => WriteUser u (try_catch k handler)
  | QueryParam name k => QueryParam name (fun v => try_catch (k v) handler)
  | AwaitFetch req k => AwaitFetch req (fun o => try_catch (k o) handler)
  | AwaitJson r k => AwaitJson r (fun o => try_catch (k o) handler)
  | ConsoleLog r k => ConsoleLog r (try_catch k handler)
  | Detach q k => Detach q (try_catch k handler)
  end.

Definition void {A : Type} (p : Prog A) : Prog unit := bind p (fun _ => Return tt).

(** [fetch(input, init)], awaited. *)
Definition fetch (input : string) (i : RequestInit) : Prog Response :=
  AwaitFetch (mkRequest input i)
    (fun o => match o with
              | Responds r => Return r
              | Fails e => Throw e
              end).

(** [await r.json()] *)
Definition awaitJson (r : Response) : Prog Value :=
  AwaitJson r
    (fun o => match o with
              | Json v => Return v
              | Unparseable m => Throw (AnError SyntaxError m)
              end).

(** [v[k]] inside a program: the [TypeError] becomes a throw. *)
Definition prop (v : Value) (k : string) : Prog Value :=
  match getProp v k with
  | inr x => Return x
  | inl e => Throw e
  end.

(** *** Running a program *)

Inductive Event : Type :=
| Fetched (req : Request)
| Wrote (u : option JustfixUser)
| Logged (r : Response)
| Unhandled (e : Thrown).

(** A detached promise waiting for the network: the request it issued
    (with its sequence number) or the body it is reading, and the rest
    of the function. *)
Inductive Suspended : Type :=
| OnFetch (seq : nat) (req : Request) (k : FetchOutcome -> Prog unit)
| OnJson (r : Response) (k : Parsed Value -> Prog unit).

(** The module-level cache [_user], the query string of
    [window.location] as the list of its parameters, the effects so far
    (newest first) and the detached promises still pending (oldest
    first). *)
Record World : Type := mkWorld {
  _user : option JustfixUser;
  search : list (string * string);
  trace : list Event;
  pending : list Suspended;
}.

Definition record (e : Event) (w : World) : World :=
  mkWorld (_user w) (search w) (e :: trace w) (pending w).

Definition assign (u : option JustfixUser) (w : World) : World :=
  mkWorld u (search w) (Wrote u :: trace w) (pending w).

Definition suspend (s : Suspended) (w : World) : World :=
  mkWorld (_user w) (search w) (trace w) (pending w ++ [s]).

(** The requests issued so far, newest first. *)
Fixpoint requests (t : list Event) : list Request :=
  match t with
  | [] => []
  | Fetched req :: rest => req :: requests rest
  | _ :: rest => requests rest
  end.

Definition issued (w : World) : nat := length (requests (trace w)).

(** [new URLSearchParams(window.location.search).get(name)] *)
Fixpoint searchGet (name : string) (params : list (string * string)) : option string :=
  match params with
  | [] => None
  | (k, v) :: rest => if name =? k then Some v else searchGet name rest
  end.

(** The network: what the [n]-th call of [fetch] (counting from 0) with
    a given request comes to. *)
Definition Net : Type := nat -> Request -> FetchOutcome.

(** Runs a detached call up to its first suspension; called again on
    what is left of it when the network answers. *)
Fixpoint launch (p : Prog unit) (w : World) : World :=
  match p with
  | Return _ => w
  | Throw e => record (Unhandled e) w
  | ReadUser k => launch (k (_user w)) w
  | WriteUser u k => launch k (assign u w)
  | QueryParam name k => launch (k (searchGet name (search w))) w
  | AwaitFetch req k => suspend (OnFetch (issued w) req k) (record (Fetched req) w)
  | AwaitJson r k => suspend (OnJson r k) w
  | ConsoleLog r k => launch k (record (Logged r) w)
  | Detach q k => launch k (launch q w)
  end.

Inductive Settled (A : Type) : Type :=
| Resolved (a : A)
| Rejected (e : Thrown).
Arguments Resolved {A} a.
Arguments Rejected {A} e.

(** Runs an awaited call until its promise settles.  Nothing else runs
    in between; the promises it detaches are started and left pending. *)
Fixpoint exec {A : Type} (net : Net) (p : Prog A) (w : World) : Settled A * World :=
  match p with
  | Return a => (Resolved a, w)
  | Throw e => (Rejected e, w)
  | ReadUser k => exec net (k (_user w)) w
  | WriteUser u k => exec net k (assign u w)
  | QueryParam name k => exec net (k (searchGet name (search w))) w
  | AwaitFetch req k => exec net (k (net (issued w) req)) (record (Fetched req) w)
  | AwaitJson r k => exec net (k (json r)) w
  | ConsoleLog r k => exec net k (record (Logged r) w)
  | Detach q k => exec net k (launch q w)
  end.

(** One turn of the event loop for the detached promises: the oldest
    one gets its answer and runs to its next suspension or to its end. *)
Definition resume (net : Net) (w : World) : World :=
  match pending w with
  | [] => w
  | OnFetch n req k :: rest =>
      launch (k (net n req)) (mkWorld (_user w) (search w) (trace w) rest)
  | OnJson r k :: rest =>
      launch (k (json r)) (mkWorld (_user w) (search w) (trace w) rest)
  end.

End Async.

(* ===================================================================== *)
(** ** AuthClient.ts *)
(* ===================================================================== *)

Module VerifyStatusCode.

Inductive t : Type := Success | AlreadyVerified | Failure | Expired | Unknown.

Definition value (c : t) : Z :=
  match c with
  | Success => 200
  | AlreadyVerified => 208
  | Failure => 400
  | Expired => 404
  | Unknown => 500
  end.

End VerifyStatusCode.

Module ResetStatusCode.

Inductive t : Type := Success | Accepted | Invalid | Expired | Unknown.

Definition value (c : t) : Z :=
  match c with
  | Success => 200
  | Accepted => 202
  | Invalid => 400
  | Expired => 410
  | Unknown => 500
  end.

End ResetStatusCode.

Module AuthClient.
Import Js.
Import Async.

(** [VerifyEmailResponse] and [PasswordResetResponse]: the status code is
    typed by the enumeration but holds whatever the server sent. *)
Record StatusResponse : Type := mkStatus {
  statusCode : Value;
  statusText : Value;
  error : option string;
}.

Definition setStatusCode (v : Value) (r : StatusResponse) : StatusResponse :=
  mkStatus v (statusText r) (error r).

Definition setStatusText (v : Value) (r : StatusResponse) : StatusResponse :=
  mkStatus (statusCode r) v (error r).

(** [catch (e) { if (e instanceof Error) { result.error = e.message; } }] *)
Definition catchInto (e : Thrown) (r : StatusResponse) : StatusResponse :=
  match errorMessage e with
  | Some m => mkStatus (statusCode r) (statusText r) (Some m)
  | None => r
  end.

(** [{ "Content-Type": ..., ...headers }]: a key already present keeps its
    place and takes the new value, a new key goes to the end. *)
Fixpoint setKey (k v : string) (o : list (string * string)) : list (string * string) :=
  match o with
  | [] => [(k, v)]
  | (k', v') :: rest => if k =? k' then (k, v) :: rest else (k', v') :: setKey k v rest
  end.

Definition spreadInto (o : list (string * string)) (extra : option (list (string * string)))
  : list (string * string) :=
  match extra with
  | Some kvs => fold_left (fun acc kv => setKey (fst kv) (snd kv) acc) kvs o
  | None => o
  end.

Section WithBaseUrl.

Context {platform : Platform}.

(** [Object.keys(params).map((k) => `${k}=${encodeURIComponent(params[k])}`)]:
    the values are encoded in the order of the keys, and the first one the
    encoder refuses ends the [map] with its [URIError]. *)
Fixpoint encodePairs (kvs : list (string * string)) : Thrown + list string :=
  match kvs with
  | [] => inr []
  | kv :: rest =>
      match encodeURIComponent (snd kv) with
      | inl e => inl e
      | inr encoded =>
          match encodePairs rest with
          | inl e => inl e
          | inr pairs => inr ((fst kv ++ "=" ++ encoded) :: pairs)
          end
      end
  end.

(** [params ? Object.keys(params).map(...).join("&") : ""] *)
Definition buildBody (params : option (list (string * string))) : Thrown + string :=
  match params with
  | Some kvs =>
      match encodePairs kvs with
      | inl e => inl e
      | inr pairs => inr (join "&" pairs)
      end
  | None => inr ""
  end.

(** The body expression inside an [async] function: the [URIError]
    becomes the rejection of its promise. *)
Definition encodeForm (params : option (list (string * string))) : Prog string :=
  match buildBody params with
  | inr body => Return body
  | inl e => Throw e
  end.

(** Some value of [params] has an unpaired surrogate. *)
Definition malformedParams (params : option (list (string * string))) : bool :=
  match params with
  | Some kvs => existsb (fun kv => unpairedSurrogate (snd kv)) kvs
  | None => false
  end.

(** The body that is built when the encoder accepts every value. *)
Definition formBody (params : option (list (string * string))) : string :=
  match params with
  | Some kvs => join "&" (map (fun kv => fst kv ++ "=" ++ percentEncode (snd kv)) kvs)
  | None => ""
  end.

Definition formHeaders (headers : option (list (string * string))) : list (string * string) :=
  spreadInto [("Content-Type", "application/x-www-form-urlencoded")] headers.

(** [browser.addTrailingSlash(process.env.REACT_APP_API_BASE_URL)]: the
    helper and the environment are outside this module. *)
Variable BASE_URL : string.

Definition friendlyFetch (input : string) (init : RequestInit) : Prog Response :=
  response <- try_catch
                (response <- fetch input init ;;
                 ConsoleLog response (Return response))
                (fun e => match errorMessage e with
                          | Some m => Throw (AnError NetworkError m)
                          | None => Throw (AnError PlainError "Unexpected error")
                          end) ;;
  ret response.

Definition postAuthRequest (url : string) (params headers : option (list (string * string)))
    (method : string) : Prog Value :=
  body <- encodeForm params ;;
  result <- friendlyFetch url
              (mkInit method "cors" (Some body) (formHeaders headers) (Some "include")) ;;
  try_catch
    (if ok result then awaitJson result else awaitJson result)
    (fun _ => ret (ofResponse result)).

Definition postLoginCredentials (url : string) (params headers : option (list (string * string)))
    (method : string) : Prog Value :=
  body <- encodeForm params ;;
  result <- friendlyFetch url
              (mkInit method "cors" (Some body) (formHeaders headers) (Some "include")) ;;
  awaitJson result.

Definition userAuthenticated : Prog Value :=
  postAuthRequest (BASE_URL ++ "auth/auth_check") None None "POST".

Definition user : Prog (option StateMachine.JustfixUser) := ReadUser Return.

Definition setUser (u : StateMachine.JustfixUser) : Prog StateMachine.JustfixUser :=
  WriteUser (Some u) (Return u).

Definition clearUser : Prog unit := WriteUser None (Return tt).

(** [authCheck["subscriptions"]?.map((s) => ({ ...s })) || []]: [?.] stops
    at [undefined] and [null] only, and calling [map] on anything that is
    not an array throws (the message is the one V8 gives). *)
Definition copySubscriptions (subscriptions : Value) : Prog (list Value) :=
  match subscriptions with
  | VUndefined | VNull => ret []
  | VArr items => ret (map spread items)
  | _ => Throw (AnError TypeError "authCheck.subscriptions?.map is not a function")
  end.

Definition fetchUser : Prog (option StateMachine.JustfixUser) :=
  cached <- ReadUser Return ;;
  match cached with
  | None =>
      authCheck <- userAuthenticated ;;
      if truthy authCheck then
        subscriptions <- (s <- prop authCheck "subscriptions" ;; copySubscriptions s) ;;
        email <- prop authCheck "email" ;;
        verified <- prop authCheck "verified" ;;
        id <- prop authCheck "id" ;;
        type <- prop authCheck "type" ;;
        subscriptionLimit <- prop authCheck "subscription_limit" ;;
        WriteUser
          (Some (StateMachine.mkUser email verified id type subscriptions subscriptionLimit))
          (Return tt)
      else clearUser
  | Some _ => ret tt
  end ;;
  ReadUser Return.

Definition register (username password userType : string) : Prog Value :=
  json <- postAuthRequest (BASE_URL ++ "auth/register")
            (Some [("username", toLowerCase username);
                   ("password", password);
                   ("user_type", userType)]) None "POST" ;;
  Detach (void fetchUser) (Return tt) ;;
  ret json.

Definition login (username password : string) : Prog Value :=
  json <- postLoginCredentials (BASE_URL ++ "auth/login")
            (Some [("username", toLowerCase username); ("password", password)])
            None "POST" ;;
  ret json.

Definition logout : Prog Value :=
  postAuthRequest (BASE_URL ++ "auth/logout") None None "POST".

(** [if (username)]: an absent or empty string takes the [else] branch. *)
Definition given (s : option string) : option string :=
  match s with
  | Some x => if x =? "" then None else Some x
  | None => None
  end.

Definition resetPasswordRequest (username : option string) : Prog bool :=
  try_catch
    (match given username with
     | Some name =>
         postAuthRequest (BASE_URL ++ "auth/reset_password_request")
           (Some [("username", toLowerCase name)]) None "POST" ;;
         ret true
     | None =>
         token <- QueryParam "token" Return ;;
         postAuthRequest
           (BASE_URL ++ "auth/reset_password_request_with_token?token=" ++ interpolate token)
           None None "POST" ;;
         ret true
     end)
    (fun _ => ret false).

Definition unknownReset : StatusResponse :=
  mkStatus (VNum (ResetStatusCode.value ResetStatusCode.Unknown)) (VStr "") None.

Definition unknownVerify : StatusResponse :=
  mkStatus (VNum (VerifyStatusCode.value VerifyStatusCode.Unknown)) (VStr "") None.

(** The [try] block shared by the reset and verify flows: the two fields
    of the response are assigned one after the other, and a throw leaves
    [result] as it is at that point for the [catch]. *)
Definition intoStatus (result : StatusResponse) (request : Prog Value) : Prog StatusResponse :=
  try_catch
    (response <- request ;;
     status_code <- prop response "status_code" ;;
     let result := setStatusCode status_code result in
     try_catch
       (status_text <- prop response "status_text" ;;
        ret (setStatusText status_text result))
       (fun e => ret (catchInto e result)))
    (fun e => ret (catchInto e result)).

Definition resetPasswordCheck : Prog StatusResponse :=
  token <- QueryParam "token" Return ;;
  intoStatus unknownReset
    (postAuthRequest (BASE_URL ++ "auth/reset_password/check?token=" ++ interpolate token)
       None None "POST").

Definition resetPassword (token newPassword : string) : Prog StatusResponse :=
  intoStatus unknownReset
    (postAuthRequest (BASE_URL ++ "auth/set_password?token=" ++ token)
       (Some [("new_password", newPassword)]) None "POST").

Definition verifyEmail : Prog StatusResponse :=
  code <- QueryParam "code" Return ;;
  utm <- QueryParam "utm_source" Return ;;
  let utm_source := match given utm with Some s => s | None => "" end in
  let url := BASE_URL ++ "auth/verify_email?code=" ++ interpolate code in
  let url := if utm_source =? "" then url else url ++ "&utm_source=" ++ utm_source in
  intoStatus unknownVerify (postAuthRequest url None None "POST").

Definition resendVerifyEmail (token : option string) : Prog bool :=
  try_catch
    (match given token with
     | Some t =>
         postAuthRequest (BASE_URL ++ "auth/resend_verification_with_token?u=" ++ t)
           None None "POST" ;;
         ret true
     | None =>
         postAuthRequest (BASE_URL ++ "auth/resend_verification") None None "POST" ;;
         ret true
     end)
    (fun _ => ret false).

Definition updateEmail (newEmail : string) : Prog Value :=
  postAuthRequest (BASE_URL ++ "auth/update")
    (Some [("new_email", toLowerCase newEmail)]) None "POST".

Definition updatePassword (currentPassword newPassword : string) : Prog Value :=
  postAuthRequest (BASE_URL ++ "auth/change_password")
    (Some [("current_password", currentPassword); ("new_password", newPassword)])
    None "POST".

Definition buildingSubscribe (bbl housenumber streetname zip boro : string) : Prog Value :=
  let post_data :=
    [("housenumber", housenumber); ("streetname", streetname); ("zip", zip); ("boro", boro)] in
  postAuthRequest (BASE_URL ++ "auth/subscriptions/" ++ bbl) (Some post_data) None "POST".

Definition buildingUnsubscribe (bbl : string) : Prog Value :=
  postAuthRequest (BASE_URL ++ "auth/subscriptions/" ++ bbl) None None "DELETE".

Definition isEmailAlreadyUsed (email : string) : Prog bool :=
  let sanitizedEmail := toLowerCase email in
  result <- friendlyFetch (BASE_URL ++ "auth/account_exists/" ++ sanitizedEmail)
              (mkInit "GET" "cors" None
                 [("Content-Type", "application/x-www-form-urlencoded")] None) ;;
  ret (ok result).

Definition emailUnsubscribeBuilding (bbl token : string) : Prog Value :=
  postAuthRequest (BASE_URL ++ "auth/unsubscribe/" ++ bbl ++ "?u=" ++ token) None None "POST".

Definition emailUnsubscribeAll (token : string) : Prog Value :=
  postAuthRequest (BASE_URL ++ "auth/email/unsubscribe?u=" ++ token) None None "POST".

Definition emailUserSubscriptions (token : string) : Prog Value :=
  postAuthRequest (BASE_URL ++ "auth/email/subscriptions?u=" ++ token) None None "POST".

End WithBaseUrl.

End AuthClient.

(* ===================================================================== *)
(** ** The exported object *)
(* ===================================================================== *)

Module Exports.
Import Js.
Import Async.
Import AuthClient.

(** The keys of [Client], in the order of the object literal. *)
Definition Client : list string :=
  [ "userAuthenticated"; "isEmailAlreadyUsed"; "user"; "fetchUser"; "setUser";
    "register"; "login"; "logout"; "verifyEmail"; "resendVerifyEmail";
    "updateEmail"; "updatePassword"; "resetPasswordRequest"; "resetPasswordCheck";
    "resetPassword"; "buildingSubscribe"; "buildingUnsubscribe";
    "emailUserSubscriptions"; "emailUnsubscribeBuilding"; "emailUnsubscribeAll" ].

(** A call of one of the functions [Client] holds, with its arguments. *)
Inductive Call : Type :=
| Call_userAuthenticated
| Call_isEmailAlreadyUsed (email : string)
| Call_user
| Call_fetchUser
| Call_setUser (u : StateMachine.JustfixUser)
| Call_register (username password userType : string)
| Call_login (username password : string)
| Call_logout
| Call_verifyEmail
| Call_resendVerifyEmail (token : option string)
| Call_updateEmail (newEmail : string)
| Call_updatePassword (currentPassword newPassword : string)
| Call_resetPasswordRequest (username : option string)
| Call_resetPasswordCheck
| Call_resetPassword (token newPassword : string)
| Call_buildingSubscribe (bbl housenumber streetname zip boro : string)
| Call_buildingUnsubscribe (bbl : string)
| Call_emailUserSubscriptions (token : string)
| Call_emailUnsubscribeBuilding (bbl token : string)
| Call_emailUnsubscribeAll (token : string).

Definition key (c : Call) : string :=
  match c with
  | Call_userAuthenticated => "userAuthenticated"
  | Call_isEmailAlreadyUsed _ => "isEmailAlreadyUsed"
  | Call_user => "user"
  | Call_fetchUser => "fetchUser"
  | Call_setUser _ => "setUser"
  | Call_register _ _ _ => "register"
  | Call_login _ _ => "login"
  | Call_logout => "logout"
  | Call_verifyEmail => "verifyEmail"
  | Call_resendVerifyEmail _ => "resendVerifyEmail"
  | Call_updateEmail _ => "updateEmail"
  | Call_updatePassword _ _ => "updatePassword"
  | Call_resetPasswordRequest _ => "resetPasswordRequest"
  | Call_resetPasswordCheck => "resetPasswordCheck"
  | Call_resetPassword _ _ => "resetPassword"
  | Call_buildingSubscribe _ _ _ _ _ => "buildingSubscribe"
  | Call_buildingUnsubscribe _ => "buildingUnsubscribe"
  | Call_emailUserSubscriptions _ => "emailUserSubscriptions"
  | Call_emailUnsubscribeBuilding _ _ => "emailUnsubscribeBuilding"
  | Call_emailUnsubscribeAll _ => "emailUnsubscribeAll"
  end.

(** The program a call runs; the value it returns is dropped here. *)
Definition invoke {platform : Platform} (BASE_URL : string) (c : Call) : Prog unit :=
  match c with
  | Call_userAuthenticated => void (userAuthenticated BASE_URL)
  | Call_isEmailAlreadyUsed email => void (isEmailAlreadyUsed BASE_URL email)
  | Call_user => void user
  | Call_fetchUser => void (fetchUser BASE_URL)
  | Call_setUser u => void (setUser u)
  | Call_register username password userType =>
      void (register BASE_URL username password userType)
  | Call_login username password => void (login BASE_URL username password)
  | Call_logout => void (logout BASE_URL)
  | Call_verifyEmail => void (verifyEmail BASE_URL)
  | Call_resendVerifyEmail token => void (resendVerifyEmail BASE_URL token)
  | Call_updateEmail newEmail => void (updateEmail BASE_URL newEmail)
  | Call_updatePassword currentPassword newPassword =>
      void (updatePassword BASE_URL currentPassword newPassword)
  | Call_resetPasswordRequest username => void (resetPasswordRequest BASE_URL username)
  | Call_resetPasswordCheck => void (resetPasswordCheck BASE_URL)
  | Call_resetPassword token newPassword =>
      void (resetPassword BASE_URL token newPassword)
  | Call_buildingSubscribe bbl housenumber streetname zip boro =>
      void (buildingSubscribe BASE_URL bbl housenumber streetname zip boro)
  | Call_buildingUnsubscribe bbl => void (buildingUnsubscribe BASE_URL bbl)
  | Call_emailUserSubscriptions token => void (emailUserSubscriptions BASE_URL token)
  | Call_emailUnsubscribeBuilding bbl token =>
      void (emailUnsubscribeBuilding BASE_URL bbl token)
  | Call_emailUnsubscribeAll token => void (emailUnsubscribeAll BASE_URL token)
  end.

End Exports.

(* ===================================================================== *)
(** ** Vocabulary of the statements *)
(* ===================================================================== *)

Module Spec.
Import Js.
Import Async.
Import AuthClient.

(** What [friendlyFetch] throws for a rejection of [fetch]. *)
Definition networkFailure (e : Thrown) : Thrown :=
  match errorMessage e with
  | Some m => AnError NetworkError m
  | None => AnError PlainError "Unexpected error"
  end.

(** The request [postAuthRequest] and [postLoginCredentials] send. *)
Definition formRequest (url : string) (params headers : option (list (string * string)))
    (method : string) : Request :=
  mkRequest url (mkInit method "cors" (Some (formBody params)) (formHeaders headers)
                   (Some "include")).

Definition authCheckRequest (BASE_URL : string) : Request :=
  formRequest (BASE_URL ++ "auth/auth_check") None None "POST".

(** A property of a value that is neither [undefined] nor [null]. *)
Definition field (v : Value) (k : string) : Value :=
  match getProp v k with
  | inr x => x
  | inl _ => VUndefined
  end.

(** The subscriptions [fetchUser] stores for an authentication check, when
    it can build them. *)
Definition copied (authCheck : Value) : option (list Value) :=
  match field authCheck "subscriptions" with
  | VUndefined | VNull => Some []
  | VArr items => Some (map spread items)
  | _ => None
  end.

(** The user [fetchUser] stores for an authentication check. *)
Definition userFrom (authCheck : Value) (subscriptions : list Value) : StateMachine.JustfixUser :=
  StateMachine.mkUser (field authCheck "email") (field authCheck "verified")
    (field authCheck "id") (field authCheck "type") subscriptions
    (field authCheck "subscription_limit").

Definition resolves {A : Type} (s : Settled A) : bool :=
  match s with
  | Resolved _ => true
  | Rejected _ => false
  end.

(** The values assigned to [_user] so far, newest first. *)
Fixpoint writes (t : list Event) : list (option StateMachine.JustfixUser) :=
  match t with
  | [] => []
  | Wrote u :: rest => u :: writes rest
  | _ :: rest => writes rest
  end.

(** Running the program to its end assigns nothing to [_user] and leaves
    no promise pending. *)
Definition Quiet (net : Net) {A : Type} (p : Prog A) : Prop :=
  forall w, _user (snd (exec net p w)) = _user w
            /\ writes (trace (snd (exec net p w))) = writes (trace w)
            /\ pending (snd (exec net p w)) = pending w.

(** The program never reads or writes [_user], whatever the network and
    the page's query string answer; the promises it detaches included. *)
Inductive CacheFree : forall A : Type, Prog A -> Prop :=
| CF_Return A (a : A) : CacheFree A (Return a)
| CF_Throw A e : CacheFree A (Throw e)
| CF_QueryParam A name k :
    (forall v, CacheFree A (k v)) -> CacheFree A (QueryParam name k)
| CF_AwaitFetch A req k :
    (forall o, CacheFree A (k o)) -> CacheFree A (AwaitFetch req k)
| CF_AwaitJson A r k :
    (forall o, CacheFree A (k o)) -> CacheFree A (AwaitJson r k)
| CF_ConsoleLog A r k : CacheFree A k -> CacheFree A (ConsoleLog r k)
| CF_Detach A p k : CacheFree unit p -> CacheFree A k -> CacheFree A (Detach p k).

(** The program contains no assignment of [undefined] to [_user], the
    promises it detaches included. *)
Fixpoint neverClears {A : Type} (p : Prog A) : Prop :=
  match p with
  | Return _ | Throw _ => True
  | ReadUser k => forall u, neverClears (k u)
  | WriteUser u k => u <> None /\ neverClears k
  | QueryParam _ k => forall v, neverClears (k v)
  | AwaitFetch _ k => forall o, neverClears (k o)
  | AwaitJson _ k => forall o, neverClears (k o)
  | ConsoleLog _ k => neverClears k
  | Detach q k => neverClears q /\ neverClears k
  end.

(** The same of what is left of a pending promise. *)
Definition cleanTask (s : Suspended) : Prop :=
  match s with
  | OnFetch _ _ k => forall o, neverClears (k o)
  | OnJson _ k => forall o, neverClears (k o)
  end.

(** From [w] to [w'] nothing assigned [undefined]: a populated cache is
    still populated, and what is pending stays free of such assignments. *)
Definition Keeps (w w' : World) : Prop :=
  (Forall cleanTask (pending w) -> Forall cleanTask (pending w'))
  /\ (In None (writes (trace w')) -> In None (writes (trace w)))
  /\ (_user w' = None -> _user w = None).

(** The answer awaited by the [i]-th pending promise arrives, and that
    promise runs to its next suspension or to its end.  ([resume] is the
    case of the oldest one.) *)
Definition deliver (net : Net) (i : nat) (w : World) : World :=
  match nth_error (pending w) i with
  | None => w
  | Some s =>
      let others := (firstn i (pending w) ++ skipn (S i) (pending w))%list in
      match s with
      | OnFetch n req k =>
          launch (k (net n req)) (mkWorld (_user w) (search w) (trace w) others)
      | OnJson r k =>
          launch (k (json r)) (mkWorld (_user w) (search w) (trace w) others)
      end
  end.

(** What happens on a page, one thing at a time: somebody calls an
    exported function (its promise is left to run on its own), or an
    answer arrives for one of the pending promises. *)
Inductive Action : Type :=
| Start (c : Exports.Call)
| Answer (i : nat).

Fixpoint schedule {platform : Platform} (BASE_URL : string) (net : Net)
    (actions : list Action) (w : World) : World :=
  match actions with
  | [] => w
  | Start c :: rest => schedule BASE_URL net rest (launch (Exports.invoke BASE_URL c) w)
  | Answer i :: rest => schedule BASE_URL net rest (deliver net i w)
  end.

End Spec.

(* ===================================================================== *)
(** ** Concrete servers and pages *)
(* ===================================================================== *)

Module Scenario.
Import Js.
Import Async.

Definition base : string := "https://api.example.org/".

(** The platform of the examples.  Its lower-casing is the one of ASCII,
    which every platform agrees with on the strings of the examples; the
    wording of its [URIError] is the one of V8. *)
Definition asciiLower_nonempty (s : string) :
    asciiLower s = EmptyString -> s = EmptyString :=
  match s with
  | EmptyString => fun _ => eq_refl
  | String c rest => fun H =>
      match H in (_ = t)
            return (match t with
                    | EmptyString => String c rest = EmptyString
                    | String _ _ => True
                    end) with
      | eq_refl => I
      end
  end.

Definition asciiPlatform : Platform :=
  {| toLowerCase := asciiLower;
     toLowerCase_ascii := fun s _ => eq_refl;
     toLowerCase_nonempty := asciiLower_nonempty;
     malformedURI := "URI malformed" |}.

(** A high surrogate on its own (the code unit [D800]). *)
Definition loneSurrogate : string := text [237; 160; 128]%N.

(** A page just loaded: nobody cached, no query string, nothing done. *)
Definition fresh : World := mkWorld None [] [] [].

(** A [200] response with a JSON body. *)
Definition respond (v : Value) : FetchOutcome :=
  Responds (mkResponse true "cors" (Json v)).

(** Nobody is signed in: every request is answered with the body [null]. *)
Definition nobody : Net := fun _ _ => respond VNull.

(** No connection: every [fetch] rejects. *)
Definition offline : Net := fun _ _ => Fails (AnError TypeError "Failed to fetch").

Definition tenant : Value :=
  VObj [("email", VStr "a@b.com"); ("verified", VBool true); ("id", VNum 7);
        ("type", VStr "TENANT");
        ("subscriptions", VArr [VObj [("bbl", VStr "3012380016")]]);
        ("subscription_limit", VNum 15)].

(** The user [fetchUser] builds from [tenant]. *)
Definition tenantUser : StateMachine.JustfixUser :=
  StateMachine.mkUser (VStr "a@b.com") (VBool true) (VNum 7) (VStr "TENANT")
    [VObj [("bbl", VStr "3012380016")]] (VNum 15).

(** Every request is answered with the signed-in tenant. *)
Definition signedIn : Net := fun _ _ => respond tenant.

(** A body whose [subscriptions] is an object and not an array. *)
Definition keyed : Value :=
  VObj [("email", VStr "a@b.com"); ("verified", VBool true); ("id", VNum 7);
        ("type", VStr "TENANT"); ("subscriptions", VObj []);
        ("subscription_limit", VNum 15)].

Definition keyedServer : Net := fun _ _ => respond keyed.

(** A gateway in front of the API answers with an HTML error page. *)
Definition errorPage : Response :=
  mkResponse false "cors" (Unparseable "Unexpected token < in JSON at position 0").

Definition gateway : Net := fun _ _ => Responds errorPage.

(** The first request is answered with the tenant, every later one with
    [null]. *)
Definition thenNobody : Net :=
  fun n _ => match n with
             | O => respond tenant
             | S _ => respond VNull
             end.

Definition resetDone : Net :=
  fun _ _ => respond (VObj [("status_code", VNum 200); ("status_text", VStr "ok")]).

End Scenario.

(* ===================================================================== *)
(** ** Vocabulary for the request and failure laws *)
(* ===================================================================== *)

Module Laws.
Import Js.
Import Async.
Import AuthClient.
Import Exports.
Import Spec.

(** Running the program issues at most [n] requests, each satisfying [P]. *)
Definition Issues (net : Net) {A : Type} (n : nat) (P : Request -> Prop) (p : Prog A) : Prop :=
  forall w, exists sent,
    requests (trace (snd (exec net p w))) = (sent ++ requests (trace w))%list
    /\ length sent <= n
    /\ Forall P sent.

(** Whenever the promise of the program rejects, what it rejects with
    satisfies [P]. *)
Definition Raises (net : Net) {A : Type} (P : Thrown -> Prop) (p : Prog A) : Prop :=
  forall w e, fst (exec net p w) = Rejected e -> P e.

(** The two things [friendlyFetch] throws. *)
Definition transportFailure (e : Thrown) : Prop :=
  (exists m, e = AnError NetworkError m) \/ e = AnError PlainError "Unexpected error".

(** A cross-origin request with the form content type and nothing else in
    its headers. *)
Definition corsForm (q : Request) : Prop :=
  mode (init q) = "cors"
  /\ headers (init q) = [("Content-Type", "application/x-www-form-urlencoded")].

(** The request carries the session cookie and a (possibly empty) form. *)
Definition withCookies (q : Request) : Prop :=
  credentials (init q) = Some "include" /\ exists b, body (init q) = Some b.

(** The request has neither credentials nor a body. *)
Definition bare (q : Request) : Prop :=
  credentials (init q) = None /\ body (init q) = None.

(** What a request of call [c] looks like. *)
Definition requestOf (c : Call) (q : Request) : Prop :=
  corsForm q
  /\ match c with
     | Call_isEmailAlreadyUsed _ => method (init q) = "GET" /\ bare q
     | Call_buildingUnsubscribe _ =>
         method (init q) = "DELETE" /\ withCookies q /\ body (init q) = Some ""
     | _ => method (init q) = "POST" /\ withCookies q
     end.

(** What the reset and verify flows make of the outcome of their request,
    case by case: a failed transport and a body that is [null] leave the
    initial result and add the error message; an object gives its two
    status fields (absent ones are [undefined]); anything else (a body
    that does not parse, a number, a string, an array) has no status
    fields at all. *)
Definition translate (initial : StatusResponse) (o : FetchOutcome) : StatusResponse :=
  match o with
  | Fails e =>
      match errorMessage e with
      | Some m => mkStatus (statusCode initial) (statusText initial) (Some m)
      | None => mkStatus (statusCode initial) (statusText initial) (Some "Unexpected error")
      end
  | Responds r =>
      match json r with
      | Json (VObj fields) =>
          mkStatus (lookup "status_code" fields) (lookup "status_text" fields) (error initial)
      | Json VNull =>
          mkStatus (statusCode initial) (statusText initial)
            (Some "Cannot read properties of null (reading 'status_code')")
      | Json VUndefined =>
          mkStatus (statusCode initial) (statusText initial)
            (Some "Cannot read properties of undefined (reading 'status_code')")
      | Json _ | Unparseable _ => mkStatus VUndefined VUndefined (error initial)
      end
  end.

(** How often a byte occurs in a string. *)
Fixpoint occurrences (c : ascii) (s : string) : nat :=
  match s with
  | EmptyString => 0
  | String c' rest => (if Ascii.eqb c c' then 1 else 0) + occurrences c rest
  end.

Definition isObject (v : Value) : bool :=
  match v with
  | VObj _ => true
  | _ => false
  end.

(** The calls whose rejections are swallowed. *)
Definition swallows (c : Call) : bool :=
  match c with
  | Call_user | Call_setUser _ | Call_verifyEmail | Call_resendVerifyEmail _
  | Call_resetPasswordRequest _ | Call_resetPasswordCheck | Call_resetPassword _ _ => true
  | _ => false
  end.

(** The values a call hands to [encodeURIComponent], in the order in
    which they are encoded. *)
Definition formValues {platform : Platform} (c : Call) : list string :=
  match c with
  | Call_register username password userType => [toLowerCase username; password; userType]
  | Call_login username password => [toLowerCase username; password]
  | Call_updateEmail newEmail => [toLowerCase newEmail]
  | Call_updatePassword currentPassword newPassword => [currentPassword; newPassword]
  | Call_resetPasswordRequest username =>
      match given username with
      | Some name => [toLowerCase name]
      | None => []
      end
  | Call_resetPassword _ newPassword => [newPassword]
  | Call_buildingSubscribe _ housenumber streetname zip boro =>
      [housenumber; streetname; zip; boro]
  | _ => []
  end.

(** Servers for the examples. *)
Definition rejected : Net :=
  fun _ _ => Responds (mkResponse false "cors"
                         (Json (VObj [("status_code", VNum 400);
                                      ("status_text", VStr "Invalid token")]))).

(** The first request is answered with the tenant, every later one fails. *)
Definition dropsAfterFirst : Net :=
  fun n _ => match n with
             | O => Scenario.respond Scenario.tenant
             | S _ => Fails (AnError TypeError "Failed to fetch")
             end.

Definition landlord : Value :=
  VObj [("email", VStr "c@d.com"); ("verified", VBool false); ("id", VNum 8);
        ("type", VStr "LANDLORD"); ("subscriptions", VNull);
        ("subscription_limit", VNum 15)].

Definition landlordUser : StateMachine.JustfixUser :=
  StateMachine.mkUser (VStr "c@d.com") (VBool false) (VNum 8) (VStr "LANDLORD") [] (VNum 15).

(** The first request is answered with the tenant, every later one with
    the landlord. *)
Definition twoSessions : Net :=
  fun n _ => match n with
             | O => Scenario.respond Scenario.tenant
             | S _ => Scenario.respond landlord
             end.

(** A page on which the tenant is already cached. *)
Definition tenantPage : World := mkWorld (Some Scenario.tenantUser) [] [] [].

(** A page opened from a verification link. *)
Definition verifyPage : World :=
  mkWorld None [("code", "abc123"); ("utm_source", "email")] [] [].

End Laws.

(* ===================================================================== *)
(** ** How programs run *)
(* ===================================================================== *)

Module Run.
Import Js.
Import Async.
Import AuthClient.
Import Spec.

Ltac run_detached :=
  cbn [bind launch exec try_catch resume pending suspend record assign
       _user trace search issued requests writes length app fst snd].

Lemma exec_bind {A B : Type} (net : Net) (p : Prog A) (f : A -> Prog B) (w : World) :
  exec net (bind p f) w =
  match exec net p w with
  | (Resolved a, w') => exec net (f a) w'
  | (Rejected e, w') => (Rejected e, w')
  end.
Proof.
  revert B f w.
  induction p as [A a | A e | A k IH | A u k IH | A name k IH | A req k IH
                 | A r k IH | A r k IH | A q IHq k IH]; intros B f w; cbn; auto.
Qed.

Lemma exec_try_catch {A : Type} (net : Net) (p : Prog A) (h : Thrown -> Prog A) (w : World) :
  exec net (try_catch p h) w =
  match exec net p w with
  | (Resolved a, w') => (Resolved a, w')
  | (Rejected e, w') => exec net (h e) w'
  end.
Proof.
  revert h w.
  induction p as [A a | A e | A k IH | A u k IH | A name k IH | A req k IH
                 | A r k IH | A r k IH | A q IHq k IH]; intros h w; cbn; auto.
Qed.

Section Encoder.
Context {platform : Platform}.

Lemma encodePairs_spec (kvs : list (string * string)) :
  encodePairs kvs
  = if existsb (fun kv => unpairedSurrogate (snd kv)) kvs then inl uriMalformed
    else inr (map (fun kv => fst kv ++ "=" ++ percentEncode (snd kv)) kvs).
Proof.
  induction kvs as [| kv rest IH]; cbn [encodePairs existsb map]; [reflexivity|].
  unfold encodeURIComponent. destruct (unpairedSurrogate (snd kv)); cbn [orb]; [reflexivity|].
  rewrite IH. destruct (existsb _ rest); reflexivity.
Qed.

Lemma buildBody_spec (params : option (list (string * string))) :
  buildBody params
  = if malformedParams params then inl uriMalformed else inr (formBody params).
Proof.
  destruct params as [kvs | ]; cbn [buildBody malformedParams formBody]; [|reflexivity].
  rewrite encodePairs_spec. destruct (existsb _ kvs); reflexivity.
Qed.

Lemma encodeForm_spec (params : option (list (string * string))) :
  encodeForm params
  = if malformedParams params then Throw uriMalformed else Return (formBody params).
Proof.
  unfold encodeForm. rewrite buildBody_spec. destruct (malformedParams params); reflexivity.
Qed.

End Encoder.

Section WithNet.
Context {platform : Platform}.
Variable BASE_URL : string.
Variable net : Net.

Lemma exec_friendlyFetch (input : string) (i : RequestInit) (w : World) :
  exec net (friendlyFetch input i) w =
  match net (issued w) (mkRequest input i) with
  | Responds r => (Resolved r, record (Logged r) (record (Fetched (mkRequest input i)) w))
  | Fails e => (Rejected (networkFailure e), record (Fetched (mkRequest input i)) w)
  end.
Proof.
  unfold friendlyFetch, networkFailure. cbn.
  destruct (net (issued w) (mkRequest input i)) as [r | e]; cbn.
  - reflexivity.
  - destruct (errorMessage e); reflexivity.
Qed.

Lemma exec_postAuthRequest url params headers method (w : World) :
  exec net (postAuthRequest url params headers method) w =
  if malformedParams params then (Rejected uriMalformed, w)
  else
    let req := formRequest url params headers method in
    match net (issued w) req with
    | Responds r =>
        (Resolved (match json r with Json v => v | Unparseable _ => ofResponse r end),
         record (Logged r) (record (Fetched req) w))
    | Fails e => (Rejected (networkFailure e), record (Fetched req) w)
    end.
Proof.
  unfold postAuthRequest.
  change (@Monad.bind Prog Monad_Prog) with (@bind).
  rewrite encodeForm_spec. destruct (malformedParams params); [reflexivity|].
  cbn [bind]. cbn zeta.
  rewrite exec_bind, exec_friendlyFetch. fold (formRequest url params headers method).
  destruct (net (issued w) (formRequest url params headers method)) as [r | e]; [|reflexivity].
  rewrite exec_try_catch.
  destruct (ok r); cbn; destruct (json r); reflexivity.
Qed.

(** Without parameters nothing is encoded. *)
Lemma exec_postAuthRequest_bare url headers method (w : World) :
  exec net (postAuthRequest url None headers method) w =
  let req := formRequest url None headers method in
  match net (issued w) req with
  | Responds r =>
      (Resolved (match json r with Json v => v | Unparseable _ => ofResponse r end),
       record (Logged r) (record (Fetched req) w))
  | Fails e => (Rejected (networkFailure e), record (Fetched req) w)
  end.
Proof. rewrite exec_postAuthRequest. reflexivity. Qed.

Lemma exec_postLoginCredentials url params headers method (w : World) :
  exec net (postLoginCredentials url params headers method) w =
  if malformedParams params then (Rejected uriMalformed, w)
  else
    let req := formRequest url params headers method in
    match net (issued w) req with
    | Responds r =>
        (match json r with
         | Json v => Resolved v
         | Unparseable m => Rejected (AnError SyntaxError m)
         end,
         record (Logged r) (record (Fetched req) w))
    | Fails e => (Rejected (networkFailure e), record (Fetched req) w)
    end.
Proof.
  unfold postLoginCredentials.
  change (@Monad.bind Prog Monad_Prog) with (@bind).
  rewrite encodeForm_spec. destruct (malformedParams params); [reflexivity|].
  cbn [bind]. cbn zeta.
  rewrite exec_bind, exec_friendlyFetch. fold (formRequest url params headers method).
  destruct (net (issued w) (formRequest url params headers method)) as [r | e]; [|reflexivity].
  cbn. destruct (json r); reflexivity.
Qed.

Lemma prop_truthy (v : Value) (k : string) :
  truthy v = true -> prop v k = Return (field v k).
Proof.
  unfold prop, field. destruct v; cbn; intros H; try discriminate; reflexivity.
Qed.

Lemma exec_fetchUser (w : World) :
  exec net (fetchUser BASE_URL) w =
  match _user w with
  | Some u => (Resolved (Some u), w)
  | None =>
      match exec net (userAuthenticated BASE_URL) w with
      | (Rejected e, w1) => (Rejected e, w1)
      | (Resolved authCheck, w1) =>
          if truthy authCheck then
            match copied authCheck with
            | Some subs =>
                (Resolved (Some (userFrom authCheck subs)),
                 assign (Some (userFrom authCheck subs)) w1)
            | None =>
                (Rejected (AnError TypeError "authCheck.subscriptions?.map is not a function"),
                 w1)
            end
          else (Resolved None, assign None w1)
      end
  end.
Proof.
  unfold fetchUser.
  change (@Monad.bind Prog Monad_Prog) with (@bind).
  change (@ret Prog Monad_Prog) with (@Return).
  cbn [bind exec].
  destruct (_user w) as [u | ] eqn:Hu.
  - cbn. rewrite Hu. reflexivity.
  - rewrite !exec_bind.
    destruct (exec net (userAuthenticated BASE_URL) w) as [[authCheck | e] w1]; [|reflexivity].
    destruct (truthy authCheck) eqn:Ht.
    + rewrite !(prop_truthy _ _ Ht). cbn [bind].
      unfold copied, copySubscriptions.
      change (@ret Prog Monad_Prog) with (@Return).
      destruct (field authCheck "subscriptions"); reflexivity.
    + reflexivity.
Qed.

Lemma exec_intoStatus (result : StatusResponse) (request : Prog Value) (w : World) :
  exec net (intoStatus result request) w =
  match exec net request w with
  | (Resolved response, w1) =>
      (Resolved
         match getProp response "status_code" with
         | inl e => catchInto e result
         | inr code =>
             match getProp response "status_text" with
             | inl e => catchInto e (setStatusCode code result)
             | inr text => setStatusText text (setStatusCode code result)
             end
         end, w1)
  | (Rejected e, w1) => (Resolved (catchInto e result), w1)
  end.
Proof.
  unfold intoStatus.
  change (@Monad.bind Prog Monad_Prog) with (@bind).
  rewrite exec_try_catch, exec_bind.
  destruct (exec net request w) as [[response | e] w1]; [|reflexivity].
  unfold prop.
  destruct (getProp response "status_code") as [e | code]; [reflexivity|].
  cbn [bind]. rewrite exec_try_catch.
  destruct (getProp response "status_text") as [e | text]; reflexivity.
Qed.

Lemma exec_userAuthenticated (w : World) :
  exec net (userAuthenticated BASE_URL) w =
  match net (issued w) (authCheckRequest BASE_URL) with
  | Responds r =>
      (Resolved (match json r with Json v => v | Unparseable _ => ofResponse r end),
       record (Logged r) (record (Fetched (authCheckRequest BASE_URL)) w))
  | Fails e => (Rejected (networkFailure e), record (Fetched (authCheckRequest BASE_URL)) w)
  end.
Proof. unfold userAuthenticated. apply exec_postAuthRequest_bare. Qed.

Lemma fetchUser_requests (w : World) :
  requests (trace (snd (exec net (fetchUser BASE_URL) w))) =
  match _user w with
  | Some _ => requests (trace w)
  | None => authCheckRequest BASE_URL :: requests (trace w)
  end.
Proof.
  rewrite exec_fetchUser, exec_userAuthenticated.
  destruct (_user w); [reflexivity|].
  destruct (net (issued w) (authCheckRequest BASE_URL)) as [r | e]; [|reflexivity].
  destruct (truthy _); [|reflexivity].
  destruct (copied _); reflexivity.
Qed.

(** *** Programs that leave the cache alone *)

Lemma Quiet_Return {A : Type} (a : A) : Quiet net (Return a).
Proof. intros w. cbn. auto. Qed.

Lemma Quiet_ret {A : Type} (a : A) : Quiet net (ret a).
Proof. apply Quiet_Return. Qed.

Lemma Quiet_Throw {A : Type} (e : Thrown) : Quiet net (@Throw A e).
Proof. intros w. cbn. auto. Qed.

Lemma Quiet_bind {A B : Type} (p : Prog A) (f : A -> Prog B) :
  Quiet net p -> (forall a, Quiet net (f a)) -> Quiet net (bind p f).
Proof.
  intros Hp Hf w. rewrite exec_bind. specialize (Hp w).
  destruct (exec net p w) as [[a | e] w1]; cbn in Hp.
  - destruct (Hf a w1) as (H1 & H2 & H3), Hp as (H4 & H5 & H6).
    rewrite H1, H2, H3. auto.
  - exact Hp.
Qed.

Lemma Quiet_mbind {A B : Type} (p : Prog A) (f : A -> Prog B) :
  Quiet net p -> (forall a, Quiet net (f a)) -> Quiet net (Monad.bind p f).
Proof. apply Quiet_bind. Qed.

Lemma Quiet_try_catch {A : Type} (p : Prog A) (h : Thrown -> Prog A) :
  Quiet net p -> (forall e, Quiet net (h e)) -> Quiet net (try_catch p h).
Proof.
  intros Hp Hh w. rewrite exec_try_catch. specialize (Hp w).
  destruct (exec net p w) as [[a | e] w1]; cbn in Hp.
  - exact Hp.
  - destruct (Hh e w1) as (H1 & H2 & H3), Hp as (H4 & H5 & H6).
    rewrite H1, H2, H3. auto.
Qed.

Lemma Quiet_QueryParam (name : string) : Quiet net (QueryParam name Return).
Proof. intros w. cbn. auto. Qed.

Lemma Quiet_user : Quiet net user.
Proof. intros w. cbn. auto. Qed.

Lemma Quiet_friendlyFetch (input : string) (i : RequestInit) : Quiet net (friendlyFetch input i).
Proof.
  intros w. rewrite exec_friendlyFetch.
  destruct (net (issued w) _); cbn; auto.
Qed.

Lemma Quiet_postAuthRequest url params headers method :
  Quiet net (postAuthRequest url params headers method).
Proof.
  intros w. rewrite exec_postAuthRequest. cbn zeta.
  destruct (malformedParams params); [cbn; auto|].
  destruct (net (issued w) _); cbn; auto.
Qed.

Lemma Quiet_postLoginCredentials url params headers method :
  Quiet net (postLoginCredentials url params headers method).
Proof.
  intros w. rewrite exec_postLoginCredentials. cbn zeta.
  destruct (malformedParams params); [cbn; auto|].
  destruct (net (issued w) _); cbn; auto.
Qed.

Lemma Quiet_intoStatus (result : StatusResponse) (request : Prog Value) :
  Quiet net request -> Quiet net (intoStatus result request).
Proof.
  intros Hp w. rewrite exec_intoStatus. specialize (Hp w).
  destruct (exec net request w) as [[a | e] w1]; exact Hp.
Qed.

Lemma Quiet_void {A : Type} (p : Prog A) : Quiet net p -> Quiet net (void p).
Proof. intros Hp. apply Quiet_bind; [exact Hp | intros a; apply Quiet_Return]. Qed.

Lemma exec_register (username password userType : string) (w : World) :
  exec net (register BASE_URL username password userType) w =
  match exec net (postAuthRequest (BASE_URL ++ "auth/register")
                    (Some [("username", toLowerCase username); ("password", password);
                           ("user_type", userType)]) None "POST") w with
  | (Resolved payload, w1) => (Resolved payload, launch (void (fetchUser BASE_URL)) w1)
  | (Rejected e, w1) => (Rejected e, w1)
  end.
Proof.
  unfold register. change (@Monad.bind Prog Monad_Prog) with (@bind).
  rewrite exec_bind.
  destruct (exec net (postAuthRequest _ _ _ _) w) as [[payload | e] w1]; reflexivity.
Qed.

Lemma launch_fetchUser (w : World) :
  _user (launch (void (fetchUser BASE_URL)) w) = _user w
  /\ writes (trace (launch (void (fetchUser BASE_URL)) w)) = writes (trace w).
Proof.
  unfold fetchUser, void, userAuthenticated, postAuthRequest, encodeForm, buildBody,
    friendlyFetch, fetch.
  change (@Monad.bind Prog Monad_Prog) with (@bind).
  change (@ret Prog Monad_Prog) with (@Return).
  cbn [bind launch]. destruct (_user w) eqn:Hu; cbn; auto.
Qed.

Lemma register_cache (username password userType : string) (w : World) :
  _user (snd (exec net (register BASE_URL username password userType) w)) = _user w
  /\ writes (trace (snd (exec net (register BASE_URL username password userType) w)))
     = writes (trace w).
Proof.
  rewrite exec_register.
  pose proof (Quiet_postAuthRequest (BASE_URL ++ "auth/register")
                (Some [("username", toLowerCase username); ("password", password);
                       ("user_type", userType)]) None "POST" w) as (H1 & H2 & _).
  destruct (exec net (postAuthRequest _ _ _ _) w) as [[payload | e] w1]; cbn [fst snd] in *.
  - destruct (launch_fetchUser w1) as (H3 & H4). rewrite H3, H4. auto.
  - auto.
Qed.

Lemma fetchUser_writes (w : World) :
  writes (trace (snd (exec net (fetchUser BASE_URL) w))) =
  match _user w with
  | Some _ => writes (trace w)
  | None =>
      match fst (exec net (userAuthenticated BASE_URL) w) with
      | Rejected _ => writes (trace w)
      | Resolved authCheck =>
          if truthy authCheck then
            match copied authCheck with
            | Some copies => Some (userFrom authCheck copies) :: writes (trace w)
            | None => writes (trace w)
            end
          else None :: writes (trace w)
      end
  end.
Proof.
  rewrite exec_fetchUser.
  destruct (_user w); [reflexivity|].
  pose proof (Quiet_postAuthRequest (BASE_URL ++ "auth/auth_check") None None "POST" w)
    as (_ & Hw & _). fold (userAuthenticated BASE_URL) in Hw.
  destruct (exec net (userAuthenticated BASE_URL) w) as [[authCheck | e] w1];
    cbn [fst snd] in *.
  - destruct (truthy authCheck); [destruct (copied authCheck)|]; cbn; congruence.
  - exact Hw.
Qed.

End WithNet.
Create HintDb quiet.
#[export] Hint Resolve Quiet_Return Quiet_ret Quiet_Throw Quiet_QueryParam Quiet_user
  Quiet_friendlyFetch Quiet_postAuthRequest Quiet_postLoginCredentials : quiet.
#[export] Hint Extern 1 (Quiet _ (Monad.bind _ _)) =>
  apply Quiet_mbind; [|intro] : quiet.
#[export] Hint Extern 1 (Quiet _ (try_catch _ _)) =>
  apply Quiet_try_catch; [|intro] : quiet.
#[export] Hint Extern 1 (Quiet _ (intoStatus _ _)) => apply Quiet_intoStatus : quiet.
#[export] Hint Extern 1 (Quiet _ (void _)) => apply Quiet_void : quiet.
#[export] Hint Extern 2 (Quiet _ (match ?x with _ => _ end)) => destruct x : quiet.

End Run.

(* ===================================================================== *)
(** ** Properties of the client *)
(* ===================================================================== *)

Module Properties.
Import Js.
Import Async.
Import AuthClient.
Import Exports.
Import Spec.
Import Run.

(** C8. The two status-code enumerations have exactly the members and the
    numeric values the spec fixes: Verify has Success=200,
    AlreadyVerified=208, Failure=400, Expired=404, Unknown=500 and Reset
    has Success=200, Accepted=202, Invalid=400, Expired=410, Unknown=500. *)
Theorem status_code_values :
  (VerifyStatusCode.value VerifyStatusCode.Success = 200
   /\ VerifyStatusCode.value VerifyStatusCode.AlreadyVerified = 208
   /\ VerifyStatusCode.value VerifyStatusCode.Failure = 400
   /\ VerifyStatusCode.value VerifyStatusCode.Expired = 404
   /\ VerifyStatusCode.value VerifyStatusCode.Unknown = 500)%Z
  /\ (ResetStatusCode.value ResetStatusCode.Success = 200
      /\ ResetStatusCode.value ResetStatusCode.Accepted = 202
      /\ ResetStatusCode.value ResetStatusCode.Invalid = 400
      /\ ResetStatusCode.value ResetStatusCode.Expired = 410
      /\ ResetStatusCode.value ResetStatusCode.Unknown = 500)%Z
  /\ (forall c, In (VerifyStatusCode.value c) [200; 208; 400; 404; 500]%Z)
  /\ (forall c, In (ResetStatusCode.value c) [200; 202; 400; 410; 500]%Z).
Proof.
  repeat split; try reflexivity.
  - intros c. destruct c; cbn; auto 6.
  - intros c. destruct c; cbn; auto 6.
Qed.

Section Client.
Context {platform : Platform}.
Variable BASE_URL : string.
Variable net : Net.

(** C7. [isEmailAlreadyUsed(email)] issues one GET request, to the
    account-exists endpoint followed by the email as the platform's
    [toLowerCase] returns it, and returns the [ok] flag of the response;
    it parses no body.  (A failing transport makes it throw.)  For an
    email of ASCII characters what is sent is the email with its capitals
    made small: ["A@B.com"] is sent as ["a@b.com"]. *)
Theorem isEmailAlreadyUsed_sends_lowercase_returns_ok (email : string) (w : World) :
  let req := mkRequest (BASE_URL ++ "auth/account_exists/" ++ toLowerCase email)
               (mkInit "GET" "cors" None
                  [("Content-Type", "application/x-www-form-urlencoded")] None) in
  let run := exec net (isEmailAlreadyUsed BASE_URL email) w in
  requests (trace (snd run)) = req :: requests (trace w)
  /\ fst run = match net (issued w) req with
               | Responds r => Resolved (ok r)
               | Fails e => Rejected (networkFailure e)
               end
  /\ (asciiOnly email = true -> toLowerCase email = asciiLower email)
  /\ toLowerCase "A@B.com" = "a@b.com".
Proof.
  cbn zeta. unfold isEmailAlreadyUsed.
  change (@Monad.bind Prog Monad_Prog) with (@bind).
  rewrite exec_bind, exec_friendlyFetch.
  split; [|split; [|split]].
  - destruct (net (issued w) _) as [r | e]; reflexivity.
  - destruct (net (issued w) _) as [r | e]; reflexivity.
  - apply toLowerCase_ascii.
  - rewrite toLowerCase_ascii; reflexivity.
Qed.

Ltac cache_free :=
  repeat first
    [ progress cbn
    | constructor
    | intro
    | match goal with
      | |- context [match ?x with _ => _ end] => destruct x
      end ].

(** C9, as the code has it.  [login(username, password)] encodes the
    username as the platform's [toLowerCase] returns it, and then the
    password.  When the encoder accepts both, it posts them to the login
    endpoint and returns the JSON payload of the response as it is; when
    the encoder refuses one of them (an unpaired surrogate), no request is
    made and the promise rejects with the encoder's error.  In every case
    the user cache is left as it was: the function contains no read and
    no write of [_user].  For a username of ASCII characters what is
    encoded is the username with its capitals made small. *)
Theorem login_lowercases_and_keeps_cache (username password : string) (w : World) :
  let run := exec net (login BASE_URL username password) w in
  (forall name secret,
     encodeURIComponent (toLowerCase username) = inr name ->
     encodeURIComponent password = inr secret ->
     let req := mkRequest (BASE_URL ++ "auth/login")
                  (mkInit "POST" "cors"
                     (Some ("username=" ++ name ++ "&password=" ++ secret))
                     [("Content-Type", "application/x-www-form-urlencoded")]
                     (Some "include")) in
     requests (trace (snd run)) = req :: requests (trace w)
     /\ fst run = match net (issued w) req with
                  | Responds r =>
                      match json r with
                      | Json payload => Resolved payload
                      | Unparseable m => Rejected (AnError SyntaxError m)
                      end
                  | Fails e => Rejected (networkFailure e)
                  end)
  /\ (forall e, encodeURIComponent (toLowerCase username) = inl e ->
        run = (Rejected e, w))
  /\ (forall name e,
        encodeURIComponent (toLowerCase username) = inr name ->
        encodeURIComponent password = inl e ->
        run = (Rejected e, w))
  /\ _user (snd run) = _user w
  /\ CacheFree _ (login BASE_URL username password)
  /\ (asciiOnly username = true -> toLowerCase username = asciiLower username).
Proof.
  cbn zeta.
  assert (Hrun : exec net (login BASE_URL username password) w
                 = exec net
                     (postLoginCredentials (BASE_URL ++ "auth/login")
                        (Some [("username", toLowerCase username); ("password", password)])
                        None "POST") w).
  { unfold login. change (@Monad.bind Prog Monad_Prog) with (@bind).
    rewrite exec_bind.
    destruct (exec net (postLoginCredentials _ _ _ _) w) as [[v | e] w1]; reflexivity. }
  rewrite Hrun, exec_postLoginCredentials. cbn zeta.
  unfold encodeURIComponent, malformedParams. cbn [existsb snd].
  split; [|split; [|split; [|split; [|split]]]].
  - intros name secret Hn Hs.
    destruct (unpairedSurrogate (toLowerCase username)); [discriminate|].
    destruct (unpairedSurrogate password); [discriminate|].
    inversion Hn; inversion Hs; subst. cbn [orb].
    unfold formRequest, formBody, formHeaders. cbn [map join fst snd spreadInto].
    destruct (net (issued w) _) as [r | e]; cbn; auto.
  - intros e He.
    destruct (unpairedSurrogate (toLowerCase username)); [|discriminate].
    inversion He; subst. reflexivity.
  - intros name e Hn He.
    destruct (unpairedSurrogate (toLowerCase username)); [discriminate|].
    destruct (unpairedSurrogate password); [|discriminate].
    inversion He; subst. reflexivity.
  - destruct (_ || _); [reflexivity|].
    destruct (net (issued w) _) as [r | e]; reflexivity.
  - unfold login, postLoginCredentials, encodeForm, friendlyFetch, fetch, awaitJson.
    cache_free.
  - apply toLowerCase_ascii.
Qed.

(** C4. [resetPassword] never throws.  When the server answers with a JSON
    object, the result carries its [status_code] and [status_text] and no
    [error]; when the request fails with an error of message [m], the
    result is the initial [{statusCode: 500, statusText: ""}] with
    [error: m].  (A new password the encoder refuses is reported the same
    way, with the encoder's message, and no request is made.) *)
Theorem resetPassword_translates_and_never_throws (token newPassword : string) (w : World) :
  let req := formRequest (BASE_URL ++ "auth/set_password?token=" ++ token)
               (Some [("new_password", newPassword)]) None "POST" in
  let outcome := fst (exec net (resetPassword BASE_URL token newPassword) w) in
  (exists result, outcome = Resolved result)
  /\ (forall r fields,
        net (issued w) req = Responds r -> json r = Json (VObj fields) ->
        outcome = Resolved (if unpairedSurrogate newPassword
                            then mkStatus (VNum 500) (VStr "") (Some malformedURI)
                            else mkStatus (lookup "status_code" fields)
                                   (lookup "status_text" fields) None))
  /\ (forall cls m,
        net (issued w) req = Fails (AnError cls m) ->
        outcome = Resolved (mkStatus (VNum 500) (VStr "")
                              (Some (if unpairedSurrogate newPassword
                                     then malformedURI else m)))).
Proof.
  cbn zeta. unfold resetPassword.
  rewrite exec_intoStatus, exec_postAuthRequest. cbn zeta.
  unfold malformedParams. cbn [existsb snd]. rewrite orb_false_r.
  destruct (unpairedSurrogate newPassword).
  - cbn. eauto.
  - split; [|split].
    + destruct (net (issued w) _); cbn; eauto.
    + intros r fields Hnet Hjson. rewrite Hnet, Hjson. reflexivity.
    + intros cls m Hnet. rewrite Hnet. reflexivity.
Qed.

(** C5. [resetPasswordRequest] and [resendVerifyEmail] never throw: each
    resolves to [true] when the request it makes through [postAuthRequest]
    completes and to [false] when that request throws, transport failures
    included. *)
Theorem boolean_flows_swallow_failures (username token : option string) (w : World) :
  let resetCall :=
    match given username with
    | Some name =>
        postAuthRequest (BASE_URL ++ "auth/reset_password_request")
          (Some [("username", toLowerCase name)]) None "POST"
    | None =>
        postAuthRequest
          (BASE_URL ++ "auth/reset_password_request_with_token?token="
             ++ interpolate (searchGet "token" (search w))) None None "POST"
    end in
  let resendCall :=
    match given token with
    | Some t =>
        postAuthRequest (BASE_URL ++ "auth/resend_verification_with_token?u=" ++ t)
          None None "POST"
    | None => postAuthRequest (BASE_URL ++ "auth/resend_verification") None None "POST"
    end in
  fst (exec net (resetPasswordRequest BASE_URL username) w)
    = Resolved (resolves (fst (exec net resetCall w)))
  /\ fst (exec net (resendVerifyEmail BASE_URL token) w)
    = Resolved (resolves (fst (exec net resendCall w))).
Proof.
  cbn zeta. unfold resetPasswordRequest, resendVerifyEmail.
  change (@Monad.bind Prog Monad_Prog) with (@bind).
  rewrite !exec_try_catch.
  split.
  - destruct (given username) as [name | ].
    + rewrite exec_bind.
      destruct (exec net (postAuthRequest _ _ _ _) w) as [[v | e] w1]; reflexivity.
    + cbn [bind exec]. rewrite exec_bind.
      destruct (exec net (postAuthRequest _ _ _ _) w) as [[v | e] w1]; reflexivity.
  - destruct (given token) as [t | ]; rewrite exec_bind;
      destruct (exec net (postAuthRequest _ _ _ _) w) as [[v | e] w1]; reflexivity.
Qed.

(** C6, as the code has it.  When the transport succeeds and the body does
    not parse as JSON, a call through [postAuthRequest] resolves to the
    raw response object, and a call through [postLoginCredentials] (which
    has no [try] around [json()]) rejects with the parser's error.  (With
    a parameter the encoder refuses, neither makes a request: both reject
    with the encoder's error.) *)
Theorem unparseable_body_raw_response_or_rejection
    (url : string) (params headers : option (list (string * string))) (method : string)
    (w : World) (r : Response) (m : string) :
  net (issued w) (formRequest url params headers method) = Responds r ->
  json r = Unparseable m ->
  fst (exec net (postAuthRequest url params headers method) w)
  = (if malformedParams params then Rejected uriMalformed else Resolved (ofResponse r))
  /\ fst (exec net (postLoginCredentials url params headers method) w)
     = (if malformedParams params then Rejected uriMalformed
        else Rejected (AnError SyntaxError m)).
Proof.
  intros Hnet Hjson.
  rewrite exec_postAuthRequest, exec_postLoginCredentials. cbn zeta.
  destruct (malformedParams params); [split; reflexivity|].
  rewrite Hnet, Hjson. split; reflexivity.
Qed.

(** C1, as the code has it.  When the first of two successive calls of
    [fetchUser()] leaves the cache populated, the second returns the
    cached user without any request, so the two calls issue at most one
    authentication check; when the first leaves the cache empty (a falsy
    answer or a failure), the second issues the check again.  After
    [clearUser()] the next [fetchUser()] issues the authentication check. *)
Theorem fetchUser_cache_hit_and_recheck (w : World) :
  let first := snd (exec net (fetchUser BASE_URL) w) in
  (forall u, _user first = Some u ->
     exec net (fetchUser BASE_URL) first = (Resolved (Some u), first)
     /\ issued first <= issued w + 1)
  /\ (_user first = None ->
      requests (trace (snd (exec net (fetchUser BASE_URL) first)))
      = authCheckRequest BASE_URL :: requests (trace first))
  /\ (let cleared := snd (exec net clearUser w) in
      requests (trace (snd (exec net (fetchUser BASE_URL) cleared)))
      = authCheckRequest BASE_URL :: requests (trace w)).
Proof.
  cbn zeta. split; [|split].
  - intros u Hu. split.
    + rewrite (exec_fetchUser BASE_URL net (snd _)), Hu. reflexivity.
    + unfold issued. rewrite fetchUser_requests.
      destruct (_user w); cbn; lia.
  - intros Hnone. rewrite fetchUser_requests, Hnone. reflexivity.
  - rewrite fetchUser_requests. reflexivity.
Qed.

(** C2, as the code has it.  [fetchUser()] on an empty cache: when the
    authentication check fails the cache is empty afterwards, and so it is
    when the check returns a falsy value; when the check returns a truthy
    value whose [subscriptions] is absent, [null] or an array, the cache
    holds the user built from the fields of that value, each subscription
    copied. *)
Theorem fetchUser_fills_or_clears_empty_cache (w : World) :
  _user w = None ->
  let run := exec net (fetchUser BASE_URL) w in
  match fst (exec net (userAuthenticated BASE_URL) w) with
  | Rejected e => fst run = Rejected e /\ _user (snd run) = None
  | Resolved authCheck =>
      if truthy authCheck then
        forall copies, copied authCheck = Some copies ->
          fst run = Resolved (Some (userFrom authCheck copies))
          /\ _user (snd run) = Some (userFrom authCheck copies)
      else fst run = Resolved None /\ _user (snd run) = None
  end.
Proof.
  intros Hnone. cbn zeta. rewrite exec_fetchUser, Hnone.
  pose proof (Quiet_postAuthRequest net (BASE_URL ++ "auth/auth_check") None None "POST" w)
    as (Hu & _). fold (userAuthenticated BASE_URL) in Hu.
  destruct (exec net (userAuthenticated BASE_URL) w) as [[authCheck | e] w1]; cbn in Hu |- *.
  - destruct (truthy authCheck).
    + intros copies Hc. rewrite Hc. cbn. auto.
    + cbn. auto.
  - split; [reflexivity | congruence].
Qed.

(** C3, as the code has it.  [register] calls [fetchUser()] and does not
    await it.  At the moment its promise resolves the cache is what it was
    before the call.  If the cache was empty, the authentication check has
    been issued and its promise is pending; when that promise is the only
    one pending and the check answers with a truthy body whose
    [subscriptions] can be copied, the cache holds the user of the check
    two turns of the event loop later (the response, then its body).  If
    the cache was populated, no check is issued. *)
Theorem register_refreshes_the_cache_later
    (username password userType : string) (w : World) (payload : Value) :
  let registration :=
    formRequest (BASE_URL ++ "auth/register")
      (Some [("username", toLowerCase username); ("password", password);
             ("user_type", userType)]) None "POST" in
  let run := exec net (register BASE_URL username password userType) w in
  fst run = Resolved payload ->
  _user (snd run) = _user w
  /\ writes (trace (snd run)) = writes (trace w)
  /\ (forall u, _user w = Some u ->
        requests (trace (snd run)) = registration :: requests (trace w)
        /\ pending (snd run) = pending w)
  /\ (_user w = None ->
        requests (trace (snd run))
        = authCheckRequest BASE_URL :: registration :: requests (trace w)
        /\ length (pending (snd run)) = S (length (pending w))
        /\ (forall r authCheck copies,
              pending w = [] ->
              net (S (issued w)) (authCheckRequest BASE_URL) = Responds r ->
              json r = Json authCheck ->
              truthy authCheck = true ->
              copied authCheck = Some copies ->
              _user (resume net (resume net (snd run)))
              = Some (userFrom authCheck copies))).
Proof.
  cbn zeta. unfold register.
  change (@Monad.bind Prog Monad_Prog) with (@bind).
  change (@ret Prog Monad_Prog) with (@Return).
  rewrite exec_bind, exec_postAuthRequest. cbn zeta.
  destruct (malformedParams _); [discriminate|].
  destruct (net (issued w) _) as [r0 | e0]; [|discriminate].
  intros _.
  unfold fetchUser, void, userAuthenticated, postAuthRequest, encodeForm, buildBody,
    friendlyFetch, fetch.
  change (@Monad.bind Prog Monad_Prog) with (@bind).
  change (@ret Prog Monad_Prog) with (@Return).
  unfold issued, authCheckRequest, formRequest. cbn [formBody]. run_detached.
  destruct (_user w) as [u | ] eqn:Hu; run_detached.
  - split; [assumption|]. split; [reflexivity|].
    split; [intros; split; reflexivity | discriminate].
  - split; [assumption|]. split; [reflexivity|]. split; [discriminate|].
    intros _. split; [reflexivity|]. split.
    + rewrite length_app. cbn. lia.
    + intros r authCheck copies Hp Hnet Hjson Ht Hc.
      unfold resume at 2. run_detached. rewrite Hp. run_detached.
      rewrite Hnet. run_detached.
      assert (Hsub : bind (prop authCheck "subscriptions") copySubscriptions
                     = Return copies).
      { rewrite (prop_truthy _ _ Ht). cbn [bind]. unfold copySubscriptions.
        unfold copied in Hc.
        destruct (field authCheck "subscriptions"); inversion Hc; reflexivity. }
      destruct (ok r); unfold awaitJson; run_detached;
        unfold resume; run_detached; rewrite Hjson; run_detached;
        rewrite Ht; change (fun s => copySubscriptions s) with copySubscriptions;
        rewrite Hsub, !(prop_truthy _ _ Ht); reflexivity.
Qed.

Lemma quiet_calls (c : Call) :
  c <> Call_fetchUser -> (forall u, c <> Call_setUser u) ->
  (forall username password userType, c <> Call_register username password userType) ->
  Quiet net (invoke BASE_URL c).
Proof.
  intros Hf Hs Hr.
  destruct c; try congruence; try (exfalso; eapply Hs; reflexivity);
    try (exfalso; eapply Hr; reflexivity);
    unfold invoke, userAuthenticated, isEmailAlreadyUsed, login, logout, verifyEmail,
      resendVerifyEmail, updateEmail, updatePassword, resetPasswordRequest,
      resetPasswordCheck, resetPassword, buildingSubscribe, buildingUnsubscribe,
      emailUserSubscriptions, emailUnsubscribeBuilding, emailUnsubscribeAll;
    cbn zeta; auto 12 with quiet.
Qed.

Lemma calls_keep_the_cache (c : Call) (w : World) :
  c <> Call_fetchUser -> (forall u, c <> Call_setUser u) ->
  _user (snd (exec net (invoke BASE_URL c) w)) = _user w
  /\ writes (trace (snd (exec net (invoke BASE_URL c) w))) = writes (trace w).
Proof.
  intros Hf Hs.
  destruct c as [ | | | | | username password userType | | | | | | | | | | | | | | ];
    try (destruct (quiet_calls _ Hf Hs (ltac:(congruence)) w) as (H1 & H2 & _);
         split; assumption).
  unfold invoke, void. rewrite exec_bind.
  pose proof (register_cache BASE_URL net username password userType w) as H.
  destruct (exec net (register BASE_URL username password userType) w) as [[v | e] w1];
    exact H.
Qed.

Lemma Keeps_refl (w : World) : Keeps w w.
Proof. unfold Keeps. auto. Qed.

Lemma Keeps_trans (w1 w2 w3 : World) : Keeps w1 w2 -> Keeps w2 w3 -> Keeps w1 w3.
Proof. unfold Keeps. intros (A1 & A2 & A3) (B1 & B2 & B3). auto. Qed.

Lemma neverClears_bind {A B : Type} (p : Prog A) (f : A -> Prog B) :
  neverClears p -> (forall a, neverClears (f a)) -> neverClears (bind p f).
Proof.
  revert B f.
  induction p as [A a | A e | A k IH | A u k IH | A name k IH | A req k IH
                 | A r k IH | A r k IH | A q IHq k IH]; intros B f Hp Hf;
    cbn [bind neverClears] in *; intuition auto.
Qed.

Lemma neverClears_mbind {A B : Type} (p : Prog A) (f : A -> Prog B) :
  neverClears p -> (forall a, neverClears (f a)) -> neverClears (Monad.bind p f).
Proof. apply neverClears_bind. Qed.

Lemma neverClears_try_catch {A : Type} (p : Prog A) (h : Thrown -> Prog A) :
  neverClears p -> (forall e, neverClears (h e)) -> neverClears (try_catch p h).
Proof.
  revert h.
  induction p as [A a | A e | A k IH | A u k IH | A name k IH | A req k IH
                 | A r k IH | A r k IH | A q IHq k IH]; intros h Hp Hh;
    cbn [try_catch neverClears] in *; intuition auto.
Qed.

Lemma neverClears_friendlyFetch (input : string) (i : RequestInit) :
  neverClears (friendlyFetch input i).
Proof.
  unfold friendlyFetch, fetch. cbn. intros [r | e]; cbn; [exact I|].
  destruct (errorMessage e); exact I.
Qed.

Lemma neverClears_awaitJson (r : Response) : neverClears (awaitJson r).
Proof. cbn. intros [v | m]; exact I. Qed.

Lemma neverClears_encodeForm params : neverClears (encodeForm params).
Proof. unfold encodeForm. destruct (buildBody params); exact I. Qed.

Lemma neverClears_postAuthRequest url params headers method :
  neverClears (postAuthRequest url params headers method).
Proof.
  unfold postAuthRequest.
  apply neverClears_mbind; [apply neverClears_encodeForm | intros body].
  apply neverClears_mbind; [apply neverClears_friendlyFetch | intros result].
  apply neverClears_try_catch; [|intros e; exact I].
  destruct (ok result); apply neverClears_awaitJson.
Qed.

Lemma neverClears_postLoginCredentials url params headers method :
  neverClears (postLoginCredentials url params headers method).
Proof.
  unfold postLoginCredentials.
  apply neverClears_mbind; [apply neverClears_encodeForm | intros body].
  apply neverClears_mbind; [apply neverClears_friendlyFetch | intros result].
  apply neverClears_awaitJson.
Qed.

Lemma neverClears_prop (v : Value) (k : string) : neverClears (prop v k).
Proof. unfold prop. destruct (getProp v k); exact I. Qed.

Lemma neverClears_intoStatus (result : StatusResponse) (request : Prog Value) :
  neverClears request -> neverClears (intoStatus result request).
Proof.
  intros H. unfold intoStatus.
  apply neverClears_try_catch; [|intros e; exact I].
  apply neverClears_mbind; [exact H | intros response].
  apply neverClears_mbind; [apply neverClears_prop | intros code].
  apply neverClears_try_catch; [|intros e; exact I].
  apply neverClears_mbind; [apply neverClears_prop | intros t; exact I].
Qed.

Lemma neverClears_void {A : Type} (p : Prog A) : neverClears p -> neverClears (void p).
Proof. intros H. apply neverClears_bind; [exact H | intros a; exact I]. Qed.

Lemma neverClears_true {A : Type} (a : A) : neverClears (ret a : Prog A).
Proof. exact I. Qed.

Lemma neverClears_QueryParam (name : string) : neverClears (QueryParam name Return).
Proof. intros v. exact I. Qed.

Create HintDb clears.
#[local] Hint Resolve neverClears_postAuthRequest neverClears_postLoginCredentials
  neverClears_friendlyFetch neverClears_true neverClears_QueryParam : clears.
#[local] Hint Extern 1 (neverClears (Monad.bind _ _)) =>
  apply neverClears_mbind; [|intro] : clears.
#[local] Hint Extern 1 (neverClears (try_catch _ _)) =>
  apply neverClears_try_catch; [|intro] : clears.
#[local] Hint Extern 1 (neverClears (intoStatus _ _)) => apply neverClears_intoStatus : clears.
#[local] Hint Extern 1 (neverClears (void _)) => apply neverClears_void : clears.
#[local] Hint Extern 2 (neverClears (match ?x with _ => _ end)) => destruct x : clears.

Lemma neverClears_invoke (c : Call) :
  c <> Call_fetchUser ->
  (forall username password userType, c <> Call_register username password userType) ->
  neverClears (invoke BASE_URL c).
Proof.
  intros Hf Hr.
  destruct c; try congruence; try (exfalso; eapply Hr; reflexivity);
    unfold invoke, userAuthenticated, isEmailAlreadyUsed, login, logout, verifyEmail,
      resendVerifyEmail, updateEmail, updatePassword, resetPasswordRequest,
      resetPasswordCheck, resetPassword, buildingSubscribe, buildingUnsubscribe,
      emailUserSubscriptions, emailUnsubscribeBuilding, emailUnsubscribeAll;
    cbn zeta; try solve [eauto 12 with clears].
  - apply neverClears_void. intros u. exact I.
  - apply neverClears_void. cbn. split; [discriminate | exact I].
Qed.

Lemma launch_keeps_at (A : Type) (p : Prog A) :
  forall (E : A = unit), neverClears p ->
  forall w, Keeps w (launch (eq_rect A Prog p unit E) w).
Proof.
  induction p as [A a | A e | A k IH | A u k IH | A name k IH | A req k IH
                 | A r k IH | A r k IH | A q IHq k IH]; intros E Hn w; subst A;
    cbn [eq_rect launch neverClears] in *.
  - apply Keeps_refl.
  - unfold Keeps. cbn. auto.
  - apply (IH (_user w) eq_refl (Hn _)).
  - destruct Hn as (Hu & Hn).
    eapply Keeps_trans; [|apply (IH eq_refl Hn)].
    unfold Keeps. cbn. split; [auto|]. split.
    + intros [H | H]; [contradiction | exact H].
    + intros H. contradiction.
  - apply (IH _ eq_refl (Hn _)).
  - unfold Keeps. cbn. split; [|auto].
    intros H. apply Forall_app. split; [exact H|]. constructor; [exact Hn | constructor].
  - unfold Keeps. cbn. split; [|auto].
    intros H. apply Forall_app. split; [exact H|]. constructor; [exact Hn | constructor].
  - eapply Keeps_trans; [|apply (IH eq_refl Hn)].
    unfold Keeps. cbn. auto.
  - destruct Hn as (Hq & Hk).
    eapply Keeps_trans; [apply (IHq eq_refl Hq) | apply (IH eq_refl Hk)].
Qed.

Lemma launch_keeps (p : Prog unit) (w : World) : neverClears p -> Keeps w (launch p w).
Proof. intros H. exact (launch_keeps_at unit p eq_refl H w). Qed.

Lemma Forall_firstn_keeps {A : Type} (P : A -> Prop) (n : nat) (l : list A) :
  Forall P l -> Forall P (firstn n l).
Proof.
  intros H. revert n. induction H as [ | x l Hx Hl IH]; intros [ | n]; cbn; auto.
Qed.

Lemma Forall_skipn_keeps {A : Type} (P : A -> Prop) (n : nat) (l : list A) :
  Forall P l -> Forall P (skipn n l).
Proof.
  intros H. revert n. induction H as [ | x l Hx Hl IH]; intros [ | n]; cbn; auto.
Qed.

Lemma deliver_keeps (i : nat) (w : World) :
  Forall cleanTask (pending w) -> Keeps w (deliver net i w).
Proof.
  intros Hp. unfold deliver.
  destruct (nth_error (pending w) i) as [s | ] eqn:Hs; [|apply Keeps_refl].
  assert (Hclean : cleanTask s).
  { rewrite Forall_forall in Hp. apply Hp. eapply nth_error_In. exact Hs. }
  assert (Hrest : Keeps w (mkWorld (_user w) (search w) (trace w)
                             (firstn i (pending w) ++ skipn (S i) (pending w)))).
  { unfold Keeps. cbn [pending trace _user]. split; [|auto].
    intros _. apply Forall_app. split.
    - apply Forall_firstn_keeps. exact Hp.
    - apply Forall_skipn_keeps. exact Hp. }
  destruct s as [n req k | r k]; cbn in Hclean;
    (eapply Keeps_trans; [exact Hrest | apply launch_keeps; apply Hclean]).
Qed.

Lemma schedule_keeps (actions : list Action) :
  forall w,
  Forall cleanTask (pending w) ->
  (forall c, In (Start c) actions -> neverClears (invoke BASE_URL c)) ->
  Keeps w (schedule BASE_URL net actions w)
  /\ Forall cleanTask (pending (schedule BASE_URL net actions w)).
Proof.
  induction actions as [ | [c | i] rest IH]; intros w Hp Hc; cbn [schedule].
  - split; [apply Keeps_refl | exact Hp].
  - assert (K : Keeps w (launch (invoke BASE_URL c) w)).
    { apply launch_keeps. apply Hc. left. reflexivity. }
    destruct (IH (launch (invoke BASE_URL c) w)) as (K' & Hp').
    + destruct K as (K1 & _). auto.
    + intros c' Hin. apply Hc. right. exact Hin.
    + split; [eapply Keeps_trans; eassumption | exact Hp'].
  - assert (K : Keeps w (deliver net i w)) by (apply deliver_keeps; exact Hp).
    destruct (IH (deliver net i w)) as (K' & Hp').
    + destruct K as (K1 & _). auto.
    + intros c' Hin. apply Hc. right. exact Hin.
    + split; [eapply Keeps_trans; eassumption | exact Hp'].
Qed.

Lemma deliver_newest (w : World) (older : list Suspended) (s : Suspended) :
  pending w = (older ++ [s])%list ->
  deliver net (length older) w =
  match s with
  | OnFetch n req k =>
      launch (k (net n req)) (mkWorld (_user w) (search w) (trace w) older)
  | OnJson r k =>
      launch (k (json r)) (mkWorld (_user w) (search w) (trace w) older)
  end.
Proof.
  intros Hp. unfold deliver. rewrite Hp.
  rewrite nth_error_app2 by auto. rewrite Nat.sub_diag. cbn [nth_error].
  rewrite firstn_app, Nat.sub_diag, firstn_all. cbn [firstn].
  rewrite skipn_app.
  replace (S (length older) - length older)%nat with 1%nat by lia.
  rewrite skipn_all2 by auto. cbn [skipn app]. rewrite !app_nil_r.
  reflexivity.
Qed.

(** A [fetchUser()] left to run on its own finds the cache empty and asks
    the server; [setUser] stores a user; the answer of the server is
    falsy: the user is gone. *)
Lemma detached_check_empties (w : World) (u : StateMachine.JustfixUser) (r : Response)
    (authCheck : Value) :
  _user w = None ->
  net (issued w) (authCheckRequest BASE_URL) = Responds r ->
  json r = Json authCheck ->
  truthy authCheck = false ->
  let i := length (pending w) in
  let populated :=
    launch (invoke BASE_URL (Call_setUser u)) (launch (void (fetchUser BASE_URL)) w) in
  _user populated = Some u
  /\ _user (deliver net i (deliver net i populated)) = None.
Proof.
  intros Hu Hn Hj Ht. cbn zeta.
  unfold invoke, setUser, fetchUser, void, userAuthenticated, postAuthRequest, encodeForm,
    buildBody, friendlyFetch, fetch, awaitJson.
  change (@Monad.bind Prog Monad_Prog) with (@bind).
  change (@ret Prog Monad_Prog) with (@Return).
  unfold issued, authCheckRequest, formRequest in *. cbn [formBody] in *.
  run_detached. rewrite Hu. run_detached.
  split; [reflexivity|].
  match goal with
  | |- context [deliver net ?i (deliver net ?i ?x)] =>
      rewrite (deliver_newest x (pending w) _ eq_refl)
  end.
  run_detached. unfold issued. rewrite Hn. run_detached.
  destruct (ok r); run_detached;
    match goal with
    | |- context [deliver net ?i ?x] =>
        rewrite (deliver_newest x (pending w) _ eq_refl)
    end;
    run_detached; rewrite Hj; run_detached; rewrite Ht; reflexivity.
Qed.

Lemma awaited_call_keeps_a_user (c : Call) (w : World) (u : StateMachine.JustfixUser) :
  _user w = Some u ->
  exists u', _user (snd (exec net (invoke BASE_URL c) w)) = Some u'.
Proof.
  intros Hu.
  assert (Hcases : c = Call_fetchUser \/ (exists v, c = Call_setUser v)
                   \/ (c <> Call_fetchUser /\ forall v, c <> Call_setUser v)).
  { destruct c; try (right; right; split; congruence); eauto. }
  destruct Hcases as [-> | [[v ->] | [Hf Hs]]].
  - exists u. unfold invoke, void. rewrite exec_bind, exec_fetchUser, Hu. exact Hu.
  - exists v. reflexivity.
  - exists u. destruct (calls_keep_the_cache c w Hf Hs) as (H & _). congruence.
Qed.

(** C10, as the code has it.  [clearUser] is not among the keys of
    [Client].  [setUser] leaves the cache holding the user it is given and
    [logout] leaves the cache as it was.  No exported function other than
    [fetchUser] and [register] contains an assignment of [undefined] to
    the cache, in itself or in a promise it starts; so in any run made of
    calls of those other functions and of answers arriving, in any order,
    nothing assigns [undefined] and a populated cache stays populated.
    No call empties a populated cache before its own promise settles: an
    assignment of [undefined] made by then is made by [fetchUser], on a
    cache that was empty, after a falsy authentication check -- and
    [fetchUser] does make it then.  A [fetchUser] that is not waited for
    does not look at the cache again: when [setUser] stores a user before
    the falsy answer of its check arrives, the answer empties the cache
    that [setUser] populated.  And [register] starts such a [fetchUser]:
    called on an empty cache, it leaves an authentication check pending,
    whose falsy answer empties the cache in the same way, with only
    [register] and [setUser] called. *)
Theorem cache_is_emptied_only_by_fetchUser :
  ~ In "clearUser" Client
  /\ (forall c, In (key c) Client)
  /\ (forall u w,
        _user (snd (exec net (invoke BASE_URL (Call_setUser u)) w)) = Some u)
  /\ (forall w,
        _user (snd (exec net (invoke BASE_URL Call_logout) w)) = _user w
        /\ writes (trace (snd (exec net (invoke BASE_URL Call_logout) w)))
           = writes (trace w))
  /\ (forall c,
        c <> Call_fetchUser ->
        (forall username password userType,
           c <> Call_register username password userType) ->
        neverClears (invoke BASE_URL c))
  /\ (forall actions w,
        Forall cleanTask (pending w) ->
        (forall c, In (Start c) actions ->
           c <> Call_fetchUser
           /\ forall username password userType,
                c <> Call_register username password userType) ->
        let w' := schedule BASE_URL net actions w in
        (In None (writes (trace w')) -> In None (writes (trace w)))
        /\ (forall u, _user w = Some u -> exists u', _user w' = Some u'))
  /\ (forall c w u,
        _user w = Some u ->
        exists u', _user (snd (exec net (invoke BASE_URL c) w)) = Some u')
  /\ (forall c w assigned,
        writes (trace (snd (exec net (invoke BASE_URL c) w)))
        = (assigned ++ writes (trace w))%list ->
        In None assigned ->
        c = Call_fetchUser
        /\ _user w = None
        /\ exists authCheck,
             fst (exec net (userAuthenticated BASE_URL) w) = Resolved authCheck
             /\ truthy authCheck = false)
  /\ (forall w authCheck,
        _user w = None ->
        fst (exec net (userAuthenticated BASE_URL) w) = Resolved authCheck ->
        truthy authCheck = false ->
        writes (trace (snd (exec net (invoke BASE_URL Call_fetchUser) w)))
        = None :: writes (trace w))
  /\ (forall c w,
        (forall username password userType,
           c <> Call_register username password userType) ->
        pending (snd (exec net (invoke BASE_URL c) w)) = pending w)
  /\ (forall username password userType w,
        snd (exec net (invoke BASE_URL (Call_register username password userType)) w)
        = match exec net (postAuthRequest (BASE_URL ++ "auth/register")
                            (Some [("username", toLowerCase username);
                                   ("password", password);
                                   ("user_type", userType)]) None "POST") w with
          | (Resolved _, sent) => launch (void (fetchUser BASE_URL)) sent
          | (Rejected _, sent) => sent
          end)
  /\ (forall w u r authCheck,
        let started := launch (invoke BASE_URL Call_fetchUser) w in
        let populated := launch (invoke BASE_URL (Call_setUser u)) started in
        let i := length (pending w) in
        _user w = None ->
        net (issued w) (authCheckRequest BASE_URL) = Responds r ->
        json r = Json authCheck ->
        truthy authCheck = false ->
        _user populated = Some u
        /\ _user (deliver net i (deliver net i populated)) = None)
  /\ (forall username password userType w payload u r authCheck,
        let run := exec net (register BASE_URL username password userType) w in
        let populated := launch (invoke BASE_URL (Call_setUser u)) (snd run) in
        let i := length (pending w) in
        _user w = None ->
        fst run = Resolved payload ->
        net (S (issued w)) (authCheckRequest BASE_URL) = Responds r ->
        json r = Json authCheck ->
        truthy authCheck = false ->
        _user populated = Some u
        /\ _user (deliver net i (deliver net i populated)) = None).
Proof.
  assert (Hvoid : forall w, writes (trace (snd (exec net (invoke BASE_URL Call_fetchUser) w)))
                            = writes (trace (snd (exec net (fetchUser BASE_URL) w)))).
  { intros w. unfold invoke, void. rewrite exec_bind.
    destruct (exec net (fetchUser BASE_URL) w) as [[v | e] w1]; reflexivity. }
  split; [|split; [|split; [|split; [|split; [|split; [|split; [|split;
    [|split; [|split; [|split; [|split]]]]]]]]]]].
  - cbn. intuition discriminate.
  - intros c. destruct c; cbn; tauto.
  - intros u w. reflexivity.
  - intros w. apply calls_keep_the_cache; congruence.
  - intros c Hf Hr. apply neverClears_invoke; assumption.
  - intros actions w Hp Hc. cbn zeta.
    destruct (schedule_keeps actions w Hp) as ((_ & Hw & Hu) & _).
    { intros c Hin. destruct (Hc c Hin) as (Hf & Hr).
      apply neverClears_invoke; assumption. }
    split; [exact Hw|].
    intros u Hsome.
    destruct (_user (schedule BASE_URL net actions w)) as [u' | ] eqn:Hlater.
    + exists u'. reflexivity.
    + rewrite (Hu eq_refl) in Hsome. discriminate.
  - intros c w u. apply awaited_call_keeps_a_user.
  - intros c w assigned Hw Hin. symmetry in Hw.
    assert (Hcases : c = Call_fetchUser \/ (exists u, c = Call_setUser u)
                     \/ (c <> Call_fetchUser /\ forall u, c <> Call_setUser u)).
    { destruct c; try (right; right; split; congruence); eauto. }
    destruct Hcases as [-> | [[u ->] | [Hf Hs]]].
    + rewrite Hvoid, fetchUser_writes in Hw. split; [reflexivity|].
      destruct (_user w) as [u | ].
      { apply (app_inv_tail _ assigned []) in Hw. subst. destruct Hin. }
      split; [reflexivity|].
      destruct (fst (exec net (userAuthenticated BASE_URL) w)) as [authCheck | e].
      2: { apply (app_inv_tail _ assigned []) in Hw. subst. destruct Hin. }
      exists authCheck. split; [reflexivity|].
      destruct (truthy authCheck); [|reflexivity].
      destruct (copied authCheck) as [copies | ].
      * apply (app_inv_tail _ assigned [_]) in Hw. subst.
        destruct Hin as [Hin | []]. discriminate.
      * apply (app_inv_tail _ assigned []) in Hw. subst. destruct Hin.
    + cbn in Hw. apply (app_inv_tail _ assigned [_]) in Hw. subst.
      destruct Hin as [Hin | []]. discriminate.
    + destruct (calls_keep_the_cache c w Hf Hs) as (_ & H). rewrite H in Hw.
      apply (app_inv_tail _ assigned []) in Hw. subst. destruct Hin.
  - intros w authCheck Hu Hcheck Ht.
    rewrite Hvoid, fetchUser_writes, Hu, Hcheck, Ht. reflexivity.
  - intros c w Hr.
    destruct c as [ | | | | u | | | | | | | | | | | | | | | ];
      try (apply quiet_calls; congruence).
    + unfold invoke, void. rewrite exec_bind, exec_fetchUser.
      destruct (_user w); [reflexivity|].
      pose proof (Quiet_postAuthRequest net (BASE_URL ++ "auth/auth_check") None None
                    "POST" w) as (_ & _ & Hq).
      fold (userAuthenticated BASE_URL) in Hq.
      destruct (exec net (userAuthenticated BASE_URL) w) as [[v | e] w1];
        cbn [fst snd] in *; [|exact Hq].
      destruct (truthy v); [destruct (copied v)|]; exact Hq.
    + reflexivity.
  - intros username password userType w.
    unfold invoke, void. rewrite exec_bind, exec_register.
    destruct (exec net (postAuthRequest _ _ _ _) w) as [[v | e] sent]; reflexivity.
  - intros w u r authCheck. cbn zeta. intros Hu Hn Hj Ht.
    exact (detached_check_empties w u r authCheck Hu Hn Hj Ht).
  - intros username password userType w payload u r authCheck. cbn zeta.
    intros Hu Hres Hn Hj Ht. revert Hres.
    rewrite exec_register, exec_postAuthRequest. cbn zeta.
    destruct (malformedParams _); [discriminate|].
    destruct (net (issued w) _) as [r0 | e0]; [|discriminate].
    intros _. cbn [fst snd].
    match goal with
    | |- context [launch (void (fetchUser BASE_URL)) ?sent] =>
        apply (detached_check_empties sent u r authCheck); cbn; auto
    end.
Qed.

End Client.
(* --------------------------------------------------------------------- *)
(** *** The statements at concrete servers *)
(* --------------------------------------------------------------------- *)

Import Scenario.
#[local] Existing Instance asciiPlatform.

(** C1, as the spec words it, fails: with nobody signed in (the check answers
    [null]) and with no connection, two successive calls of [fetchUser()]
    issue two authentication checks; in the second case nothing was ever
    assigned to the cache in between. *)
Lemma fetchUser_twice_checks_twice :
  (let first := snd (exec nobody (fetchUser base) fresh) in
   let second := snd (exec nobody (fetchUser base) first) in
   requests (trace second) = [authCheckRequest base; authCheckRequest base]
   /\ ~ issued second <= issued fresh + 1)
  /\ (let first := snd (exec offline (fetchUser base) fresh) in
      let second := snd (exec offline (fetchUser base) first) in
      requests (trace second) = [authCheckRequest base; authCheckRequest base]
      /\ writes (trace second) = []
      /\ ~ issued second <= issued fresh + 1).
Proof.
  cbn zeta. repeat split; try reflexivity; vm_compute; lia.
Qed.

Lemma fetchUser_cache_hit_witness :
  (let first := snd (exec signedIn (fetchUser base) fresh) in
   exec signedIn (fetchUser base) first = (Resolved (Some tenantUser), first)
   /\ issued first <= issued fresh + 1)
  /\ (let first := snd (exec nobody (fetchUser base) fresh) in
      requests (trace (snd (exec nobody (fetchUser base) first)))
      = authCheckRequest base :: requests (trace first)).
Proof.
  split.
  - exact (proj1 (fetchUser_cache_hit_and_recheck (platform := asciiPlatform) base signedIn fresh) tenantUser eq_refl).
  - exact (proj1 (proj2 (fetchUser_cache_hit_and_recheck (platform := asciiPlatform) base nobody fresh)) eq_refl).
Defined.

(** C2, as the spec words it, fails: the check returns a truthy body whose
    [subscriptions] is an object, [fetchUser] throws and the cache stays
    empty. *)
Lemma fetchUser_truthy_check_leaves_cache_empty :
  _user fresh = None
  /\ fst (exec keyedServer (userAuthenticated base) fresh) = Resolved keyed
  /\ truthy keyed = true
  /\ fst (exec keyedServer (fetchUser base) fresh)
     = Rejected (AnError TypeError "authCheck.subscriptions?.map is not a function")
  /\ _user (snd (exec keyedServer (fetchUser base) fresh)) = None.
Proof. repeat split; reflexivity. Qed.

Lemma fetchUser_fills_witness :
  fst (exec signedIn (fetchUser base) fresh) = Resolved (Some tenantUser)
  /\ _user (snd (exec signedIn (fetchUser base) fresh)) = Some tenantUser.
Proof.
  exact (fetchUser_fills_or_clears_empty_cache (platform := asciiPlatform) base signedIn fresh eq_refl
           [VObj [("bbl", VStr "3012380016")]] eq_refl).
Defined.

(** C3, as the spec words it, fails: registration succeeds, the authentication
    check would report the tenant, and the cache is still empty when the
    promise of [register] resolves; it holds the tenant two turns of the
    event loop later. *)
Lemma register_resolves_with_cache_empty :
  let run := exec signedIn (register base "A@B.com" "secret" "TENANT") fresh in
  fst run = Resolved tenant
  /\ signedIn 1 (authCheckRequest base) = respond tenant
  /\ _user (snd run) = None
  /\ _user (snd run) <> Some tenantUser
  /\ _user (resume signedIn (resume signedIn (snd run))) = Some tenantUser.
Proof.
  cbn zeta. repeat split; try reflexivity. vm_compute. discriminate.
Qed.

Lemma register_refresh_witness :
  let run := exec signedIn (register base "A@B.com" "secret" "TENANT") fresh in
  _user (snd run) = None
  /\ length (pending (snd run)) = 1
  /\ _user (resume signedIn (resume signedIn (snd run))) = Some tenantUser.
Proof.
  cbn zeta.
  destruct (register_refreshes_the_cache_later (platform := asciiPlatform) base signedIn "A@B.com" "secret" "TENANT"
              fresh tenant eq_refl) as (H1 & _ & _ & H2).
  destruct (H2 eq_refl) as (_ & H3 & H4).
  split; [exact H1|]. split; [exact H3|].
  exact (H4 (mkResponse true "cors" (Json tenant)) tenant
            [VObj [("bbl", VStr "3012380016")]] eq_refl eq_refl eq_refl eq_refl eq_refl).
Defined.

Lemma resetPassword_witness :
  fst (exec resetDone (resetPassword base "tok123" "newpass") fresh)
  = Resolved (mkStatus (VNum 200) (VStr "ok") None)
  /\ fst (exec offline (resetPassword base "tok123" "newpass") fresh)
     = Resolved (mkStatus (VNum 500) (VStr "") (Some "Failed to fetch")).
Proof.
  split.
  - exact (proj1 (proj2 (resetPassword_translates_and_never_throws (platform := asciiPlatform) base resetDone
                           "tok123" "newpass" fresh))
             (mkResponse true "cors"
                (Json (VObj [("status_code", VNum 200); ("status_text", VStr "ok")])))
             [("status_code", VNum 200); ("status_text", VStr "ok")] eq_refl eq_refl).
  - exact (proj2 (proj2 (resetPassword_translates_and_never_throws (platform := asciiPlatform) base offline
                           "tok123" "newpass" fresh))
             TypeError "Failed to fetch" eq_refl).
Defined.

(** C6, as the spec words it, fails for [login]: the gateway's HTML page
    does not parse, and the call rejects with the parser's error instead
    of returning the response object. *)
Lemma login_unparseable_body_rejects :
  gateway (issued fresh)
    (formRequest (base ++ "auth/login")
       (Some [("username", "a@b.com"); ("password", "secret")]) None "POST")
  = Responds errorPage
  /\ json errorPage = Unparseable "Unexpected token < in JSON at position 0"
  /\ fst (exec gateway (login base "A@B.com" "secret") fresh)
     = Rejected (AnError SyntaxError "Unexpected token < in JSON at position 0")
  /\ fst (exec gateway (login base "A@B.com" "secret") fresh)
     <> Resolved (ofResponse errorPage).
Proof.
  repeat split; try reflexivity. vm_compute. discriminate.
Qed.

Lemma unparseable_body_witness :
  fst (exec gateway (postAuthRequest (base ++ "auth/logout") None None "POST") fresh)
  = Resolved (ofResponse errorPage)
  /\ fst (exec gateway
            (postLoginCredentials (base ++ "auth/login")
               (Some [("username", "a@b.com"); ("password", "secret")]) None "POST")
            fresh)
     = Rejected (AnError SyntaxError "Unexpected token < in JSON at position 0").
Proof.
  split.
  - exact (proj1 (unparseable_body_raw_response_or_rejection (platform := asciiPlatform) gateway
                    (base ++ "auth/logout") None None "POST" fresh errorPage
                    "Unexpected token < in JSON at position 0" eq_refl eq_refl)).
  - exact (proj2 (unparseable_body_raw_response_or_rejection (platform := asciiPlatform) gateway
                    (base ++ "auth/login")
                    (Some [("username", "a@b.com"); ("password", "secret")]) None "POST"
                    fresh errorPage
                    "Unexpected token < in JSON at position 0" eq_refl eq_refl)).
Defined.

(** C7 at a server that answers every request: the address asked for is
    the one of ["a@b.com"]. *)
Lemma isEmailAlreadyUsed_witness :
  let run := exec signedIn (isEmailAlreadyUsed base "A@B.com") fresh in
  requests (trace (snd run))
  = [mkRequest "https://api.example.org/auth/account_exists/a@b.com"
       (mkInit "GET" "cors" None
          [("Content-Type", "application/x-www-form-urlencoded")] None)]
  /\ fst run = Resolved true.
Proof.
  cbn zeta.
  destruct (isEmailAlreadyUsed_sends_lowercase_returns_ok (platform := asciiPlatform) base signedIn "A@B.com" fresh)
    as (H1 & H2 & _).
  split; [exact H1 | exact H2].
Defined.

(** C9, as the spec words it, fails: a password with a surrogate that has
    lost its partner is refused by [encodeURIComponent]; nothing is sent,
    no payload comes back, and the call rejects with a [URIError]. *)
Lemma login_malformed_password_sends_nothing :
  unpairedSurrogate loneSurrogate = true
  /\ exec signedIn (login base "A@B.com" loneSurrogate) fresh
     = (Rejected (AnError URIError "URI malformed"), fresh)
  /\ requests (trace (snd (exec signedIn (login base "A@B.com" loneSurrogate) fresh)))
     = []
  /\ (forall payload,
        fst (exec signedIn (login base "A@B.com" loneSurrogate) fresh)
        <> Resolved payload).
Proof.
  repeat split; try reflexivity. intros payload. vm_compute. discriminate.
Qed.

Lemma login_witness :
  let run := exec signedIn (login base "A@B.com" "s3cret!") fresh in
  requests (trace (snd run))
  = [mkRequest "https://api.example.org/auth/login"
       (mkInit "POST" "cors" (Some "username=a%40b.com&password=s3cret!")
          [("Content-Type", "application/x-www-form-urlencoded")] (Some "include"))]
  /\ fst run = Resolved tenant
  /\ _user (snd run) = None.
Proof.
  cbn zeta.
  destruct (login_lowercases_and_keeps_cache (platform := asciiPlatform) base signedIn "A@B.com" "s3cret!" fresh)
    as (H1 & _ & _ & H2 & _).
  destruct (H1 "a%40b.com" "s3cret!" eq_refl eq_refl) as (H3 & H4).
  split; [exact H3|]. split; [exact H4 | exact H2].
Defined.

(** C10, as the spec words it, fails: [register] is called on an empty
    cache and resolves, [setUser] stores the tenant, and then the answer
    of the authentication check that [register] started arrives and is
    [null]: the cache that [setUser] populated is empty again, and
    [fetchUser] was never called. *)
Lemma register_then_setUser_cache_emptied :
  let registered :=
    snd (exec thenNobody (register base "A@B.com" "secret" "TENANT") fresh) in
  let populated := snd (exec thenNobody (invoke base (Call_setUser tenantUser)) registered) in
  let answered := resume thenNobody (resume thenNobody populated) in
  fst (exec thenNobody (register base "A@B.com" "secret" "TENANT") fresh) = Resolved tenant
  /\ _user populated = Some tenantUser
  /\ _user answered = None
  /\ writes (trace answered) = [None; Some tenantUser]
  /\ schedule base thenNobody
       [Start (Call_register "A@B.com" "secret" "TENANT"); Answer 0; Answer 0;
        Start (Call_setUser tenantUser); Answer 0; Answer 0] fresh
     = answered.
Proof. cbn zeta. repeat split; reflexivity. Qed.

Lemma cache_emptied_witness :
  (let populated :=
     launch (invoke base (Call_setUser tenantUser))
       (snd (exec thenNobody (register base "A@B.com" "secret" "TENANT") fresh)) in
   _user populated = Some tenantUser
   /\ _user (deliver thenNobody 0 (deliver thenNobody 0 populated)) = None)
  /\ (let later :=
        schedule base signedIn
          [Start Call_logout; Start (Call_login "A@B.com" "secret"); Answer 1;
           Answer 0; Start (Call_setUser tenantUser); Answer 0; Answer 0]
          (mkWorld (Some tenantUser) [] [] []) in
      ~ In None (writes (trace later)) /\ exists u, _user later = Some u)
  /\ (exists u,
        _user (snd (exec nobody (invoke base Call_fetchUser)
                      (mkWorld (Some tenantUser) [] [] []))) = Some u)
  /\ writes (trace (snd (exec nobody (invoke base Call_fetchUser) fresh))) = [None].
Proof.
  pose proof (cache_is_emptied_only_by_fetchUser (platform := asciiPlatform) base thenNobody)
    as (_ & _ & _ & _ & _ & _ & _ & _ & _ & _ & _ & _ & Hregister).
  pose proof (cache_is_emptied_only_by_fetchUser (platform := asciiPlatform) base signedIn)
    as (_ & _ & _ & _ & _ & Hrun & _).
  pose proof (cache_is_emptied_only_by_fetchUser (platform := asciiPlatform) base nobody)
    as (_ & _ & _ & _ & _ & _ & Hawaited & _ & Hdoes & _).
  split; [|split; [|split]].
  - exact (Hregister "A@B.com" "secret" "TENANT" fresh tenant tenantUser
             (mkResponse true "cors" (Json VNull)) VNull
             eq_refl eq_refl eq_refl eq_refl eq_refl).
  - destruct (Hrun [Start Call_logout; Start (Call_login "A@B.com" "secret"); Answer 1;
                    Answer 0; Start (Call_setUser tenantUser); Answer 0; Answer 0]
                (mkWorld (Some tenantUser) [] [] [])) as (Hw & Hu).
    + constructor.
    + intros c Hin. cbn in Hin.
      destruct Hin as [H | [H | [H | [H | [H | [H | [H | []]]]]]]];
        inversion H; split; try discriminate; intros; discriminate.
    + split.
      * intros Hin. exact (Hw Hin).
      * exact (Hu tenantUser eq_refl).
  - exact (Hawaited Call_fetchUser (mkWorld (Some tenantUser) [] [] []) tenantUser eq_refl).
  - exact (Hdoes fresh VNull eq_refl eq_refl eq_refl).
Defined.

End Properties.

(* ===================================================================== *)
(** ** Requests, failures and interleavings of the whole client *)
(* ===================================================================== *)

Module Coverage.
Import Js.
Import Async.
Import AuthClient.
Import Exports.
Import Spec.
Import Run.
Import Laws.

Section Counting.
Context {platform : Platform}.
Variable BASE_URL : string.
Variable net : Net.

Lemma Issues_Return {A : Type} (P : Request -> Prop) (a : A) : Issues net 0 P (Return a).
Proof. intros w. exists []. cbn. auto. Qed.

Lemma Issues_ret {A : Type} (P : Request -> Prop) (a : A) : Issues net 0 P (ret a).
Proof. apply Issues_Return. Qed.

Lemma Issues_Throw {A : Type} (P : Request -> Prop) (e : Thrown) : Issues net 0 P (@Throw A e).
Proof. intros w. exists []. cbn. auto. Qed.

Lemma Issues_le {A : Type} (n m : nat) (P : Request -> Prop) (p : Prog A) :
  Issues net n P p -> n <= m -> Issues net m P p.
Proof.
  intros H Hle w. destruct (H w) as (sent & H1 & H2 & H3).
  exists sent. repeat split; auto. lia.
Qed.

Lemma Issues_bind {A B : Type} (n m : nat) (P : Request -> Prop)
    (p : Prog A) (f : A -> Prog B) :
  Issues net n P p -> (forall a, Issues net m P (f a)) -> Issues net (n + m) P (bind p f).
Proof.
  intros Hp Hf w. rewrite exec_bind. destruct (Hp w) as (s1 & H1 & H2 & H3).
  destruct (exec net p w) as [[a | e] w1]; cbn [fst snd] in *.
  - destruct (Hf a w1) as (s2 & H4 & H5 & H6).
    exists (s2 ++ s1)%list. rewrite H4, H1, app_assoc, length_app.
    repeat split; [lia | apply Forall_app; auto].
  - exists s1. repeat split; auto. lia.
Qed.

Lemma Issues_mbind {A B : Type} (n m : nat) (P : Request -> Prop)
    (p : Prog A) (f : A -> Prog B) :
  Issues net n P p -> (forall a, Issues net m P (f a)) ->
  Issues net (n + m) P (Monad.bind p f).
Proof. apply Issues_bind. Qed.

Lemma Issues_try_catch {A : Type} (n m : nat) (P : Request -> Prop)
    (p : Prog A) (h : Thrown -> Prog A) :
  Issues net n P p -> (forall e, Issues net m P (h e)) ->
  Issues net (n + m) P (try_catch p h).
Proof.
  intros Hp Hh w. rewrite exec_try_catch. destruct (Hp w) as (s1 & H1 & H2 & H3).
  destruct (exec net p w) as [[a | e] w1]; cbn [fst snd] in *.
  - exists s1. repeat split; auto. lia.
  - destruct (Hh e w1) as (s2 & H4 & H5 & H6).
    exists (s2 ++ s1)%list. rewrite H4, H1, app_assoc, length_app.
    repeat split; [lia | apply Forall_app; auto].
Qed.

Lemma Issues_void {A : Type} (n : nat) (P : Request -> Prop) (p : Prog A) :
  Issues net n P p -> Issues net (n + 0) P (void p).
Proof. intros H. apply Issues_bind; [exact H | intros a; apply Issues_Return]. Qed.

Lemma Issues_QueryParam (P : Request -> Prop) (name : string) :
  Issues net 0 P (QueryParam name Return).
Proof. intros w. exists []. cbn. auto. Qed.

Lemma Issues_user (P : Request -> Prop) : Issues net 0 P user.
Proof. intros w. exists []. cbn. auto. Qed.

Lemma Issues_setUser (P : Request -> Prop) u : Issues net 0 P (setUser u).
Proof. intros w. exists []. cbn. auto. Qed.

Lemma Issues_friendlyFetch (P : Request -> Prop) (input : string) (i : RequestInit) :
  P (mkRequest input i) -> Issues net 1 P (friendlyFetch input i).
Proof.
  intros HP w. rewrite exec_friendlyFetch. exists [mkRequest input i].
  destruct (net (issued w) _); cbn; auto.
Qed.

Lemma Issues_postAuthRequest (P : Request -> Prop) url params headers method :
  P (formRequest url params headers method) ->
  Issues net 1 P (postAuthRequest url params headers method).
Proof.
  intros HP w. rewrite exec_postAuthRequest. cbn zeta.
  destruct (malformedParams params); [exists []; cbn; auto|].
  exists [formRequest url params headers method].
  destruct (net (issued w) _); cbn; auto.
Qed.

Lemma Issues_postLoginCredentials (P : Request -> Prop) url params headers method :
  P (formRequest url params headers method) ->
  Issues net 1 P (postLoginCredentials url params headers method).
Proof.
  intros HP w. rewrite exec_postLoginCredentials. cbn zeta.
  destruct (malformedParams params); [exists []; cbn; auto|].
  exists [formRequest url params headers method].
  destruct (net (issued w) _); cbn; auto.
Qed.

Lemma Issues_intoStatus (n : nat) (P : Request -> Prop) result (request : Prog Value) :
  Issues net n P request -> Issues net n P (intoStatus result request).
Proof.
  intros H w. rewrite exec_intoStatus. specialize (H w).
  destruct (exec net request w) as [[a | e] w1]; exact H.
Qed.

Lemma Issues_fetchUser (P : Request -> Prop) :
  P (authCheckRequest BASE_URL) -> Issues net 1 P (fetchUser BASE_URL).
Proof.
  intros HP w. rewrite fetchUser_requests.
  destruct (_user w).
  - exists []. cbn. auto.
  - exists [authCheckRequest BASE_URL]. cbn. auto.
Qed.

Lemma launch_fetchUser_requests (w : World) :
  requests (trace (launch (void (fetchUser BASE_URL)) w)) =
  match _user w with
  | Some _ => requests (trace w)
  | None => authCheckRequest BASE_URL :: requests (trace w)
  end.
Proof.
  unfold fetchUser, void, userAuthenticated, postAuthRequest, encodeForm, buildBody,
    friendlyFetch, fetch.
  change (@Monad.bind Prog Monad_Prog) with (@bind).
  change (@ret Prog Monad_Prog) with (@Return).
  cbn [bind launch]. destruct (_user w) eqn:Hu; cbn; rewrite ?Hu; reflexivity.
Qed.

Lemma Issues_register (P : Request -> Prop) username password userType :
  P (formRequest (BASE_URL ++ "auth/register")
       (Some [("username", toLowerCase username); ("password", password);
              ("user_type", userType)]) None "POST") ->
  P (authCheckRequest BASE_URL) ->
  Issues net 2 P (register BASE_URL username password userType).
Proof.
  intros H1 H2 w. rewrite exec_register, exec_postAuthRequest. cbn zeta.
  destruct (malformedParams _); [exists []; cbn; auto|].
  destruct (net (issued w) _) as [r | e]; cbn [fst snd].
  - rewrite launch_fetchUser_requests. cbn [_user record].
    destruct (_user w).
    + eexists [_]. cbn. auto.
    + eexists [_; _]. cbn. auto.
  - eexists [_]. cbn. auto.
Qed.

End Counting.

Create HintDb issues.
#[export] Hint Resolve Issues_Return Issues_ret Issues_Throw Issues_QueryParam Issues_user
  Issues_setUser Issues_friendlyFetch Issues_postAuthRequest Issues_postLoginCredentials
  Issues_fetchUser Issues_register Issues_intoStatus Issues_void : issues.
#[export] Hint Extern 1 (Issues _ _ _ (Monad.bind _ _)) =>
  eapply Issues_mbind; [|intro] : issues.
#[export] Hint Extern 1 (Issues _ _ _ (try_catch _ _)) =>
  eapply Issues_try_catch; [|intro] : issues.
#[export] Hint Extern 2 (Issues _ _ _ (match ?x with _ => _ end)) => destruct x : issues.

Section Requests.
Context {platform : Platform}.
Variable BASE_URL : string.
Variable net : Net.

Ltac shape := unfold requestOf, corsForm, withCookies, bare; cbn; eauto 10.
#[local] Hint Extern 1 (requestOf _ _) => solve [shape] : issues.

(** X1.  No call is retried and every request has the same envelope: a call of
    an exported function issues at most one request before its promise
    settles ([register] at most two: its own and the authentication check
    it starts).  Each request is a cross-origin request whose only header
    is the form content type; it is a POST that carries the cookie
    credentials and a body, except the account-exists check (a GET with
    neither) and [buildingUnsubscribe] (a DELETE with an empty body). *)
Theorem every_call_sends_one_enveloped_request (c : Call) (w : World) :
  exists sent,
    requests (trace (snd (exec net (invoke BASE_URL c) w)))
    = (sent ++ requests (trace w))%list
    /\ length sent <= 2
    /\ ((forall username password userType,
           c <> Call_register username password userType) -> length sent <= 1)
    /\ Forall (requestOf c) sent.
Proof.
  assert (H : Issues net (match c with Call_register _ _ _ => 2 | _ => 1 end)
                (requestOf c) (invoke BASE_URL c)).
  { destruct c;
      unfold invoke, userAuthenticated, isEmailAlreadyUsed, login, logout, verifyEmail,
        resendVerifyEmail, updateEmail, updatePassword, resetPasswordRequest,
        resetPasswordCheck, resetPassword, buildingSubscribe, buildingUnsubscribe,
        emailUserSubscriptions, emailUnsubscribeBuilding, emailUnsubscribeAll;
      cbn zeta;
      try match goal with
          | |- context [given ?x] => destruct (given x)
          end;
      (eapply Issues_le; [ eauto 12 with issues | cbn; lia ]). }
  destruct (H w) as (sent & H1 & H2 & H3).
  exists sent. split; [exact H1|]. split; [|split; [|exact H3]].
  - destruct c; lia.
  - intros Hr. destruct c; try lia. exfalso. eapply Hr. reflexivity.
Qed.

End Requests.
Section Failing.
Context {platform : Platform}.
Variable BASE_URL : string.
Variable net : Net.

Lemma Raises_Return {A : Type} (P : Thrown -> Prop) (a : A) : Raises net P (Return a).
Proof. intros w e H. discriminate. Qed.

Lemma Raises_ret {A : Type} (P : Thrown -> Prop) (a : A) : Raises net P (ret a).
Proof. apply Raises_Return. Qed.

Lemma Raises_bind {A B : Type} (P : Thrown -> Prop) (p : Prog A) (f : A -> Prog B) :
  Raises net P p -> (forall a, Raises net P (f a)) -> Raises net P (bind p f).
Proof.
  intros Hp Hf w e. rewrite exec_bind. specialize (Hp w).
  destruct (exec net p w) as [[a | e'] w1]; cbn [fst snd] in *.
  - apply Hf.
  - intros H. inversion H; subst. apply Hp. reflexivity.
Qed.

Lemma Raises_mbind {A B : Type} (P : Thrown -> Prop) (p : Prog A) (f : A -> Prog B) :
  Raises net P p -> (forall a, Raises net P (f a)) -> Raises net P (Monad.bind p f).
Proof. apply Raises_bind. Qed.

Lemma Raises_try_catch {A : Type} (P : Thrown -> Prop) (p : Prog A) (h : Thrown -> Prog A) :
  (forall e, Raises net P (h e)) -> Raises net P (try_catch p h).
Proof.
  intros Hh w e. rewrite exec_try_catch.
  destruct (exec net p w) as [[a | e'] w1]; cbn [fst snd].
  - discriminate.
  - apply Hh.
Qed.

Lemma Raises_void {A : Type} (P : Thrown -> Prop) (p : Prog A) :
  Raises net P p -> Raises net P (void p).
Proof. intros H. apply Raises_bind; [exact H | intros a; apply Raises_Return]. Qed.

Lemma Raises_QueryParam (P : Thrown -> Prop) (name : string) :
  Raises net P (QueryParam name Return).
Proof. intros w e H. discriminate. Qed.

Lemma Raises_user (P : Thrown -> Prop) : Raises net P user.
Proof. intros w e H. discriminate. Qed.

Lemma Raises_setUser (P : Thrown -> Prop) u : Raises net P (setUser u).
Proof. intros w e H. discriminate. Qed.

Lemma transportFailure_networkFailure (e : Thrown) : transportFailure (networkFailure e).
Proof.
  unfold transportFailure, networkFailure. destruct (errorMessage e); eauto.
Qed.

Lemma Raises_friendlyFetch (P : Thrown -> Prop) input i :
  (forall e, transportFailure e -> P e) -> Raises net P (friendlyFetch input i).
Proof.
  intros HP w e. rewrite exec_friendlyFetch.
  destruct (net (issued w) _); cbn; intros H; inversion H; subst.
  apply HP, transportFailure_networkFailure.
Qed.

Lemma Raises_postAuthRequest (P : Thrown -> Prop) url params headers method :
  (forall e, transportFailure e -> P e) ->
  (if malformedParams params then P uriMalformed else True) ->
  Raises net P (postAuthRequest url params headers method).
Proof.
  intros HP HU w e. rewrite exec_postAuthRequest. cbn zeta.
  destruct (malformedParams params).
  { cbn. intros H. inversion H; subst. exact HU. }
  destruct (net (issued w) _); cbn; intros H; inversion H; subst.
  apply HP, transportFailure_networkFailure.
Qed.

Lemma Raises_postLoginCredentials (P : Thrown -> Prop) url params headers method :
  (forall e, transportFailure e -> P e) ->
  (forall m, P (AnError SyntaxError m)) ->
  (if malformedParams params then P uriMalformed else True) ->
  Raises net P (postLoginCredentials url params headers method).
Proof.
  intros HP HS HU w e. rewrite exec_postLoginCredentials. cbn zeta.
  destruct (malformedParams params).
  { cbn. intros H. inversion H; subst. exact HU. }
  destruct (net (issued w) _) as [r | e0]; cbn.
  - destruct (json r); intros H; inversion H; subst. apply HS.
  - intros H; inversion H; subst. apply HP, transportFailure_networkFailure.
Qed.

Lemma Raises_intoStatus (P : Thrown -> Prop) result (request : Prog Value) :
  Raises net P (intoStatus result request).
Proof.
  intros w e. rewrite exec_intoStatus.
  destruct (exec net request w) as [[a | e'] w1]; discriminate.
Qed.

Lemma Raises_fetchUser (P : Thrown -> Prop) :
  (forall e, transportFailure e -> P e) ->
  P (AnError TypeError "authCheck.subscriptions?.map is not a function") ->
  Raises net P (fetchUser BASE_URL).
Proof.
  intros HP HT w e. rewrite exec_fetchUser.
  destruct (_user w); [discriminate|].
  pose proof (Raises_postAuthRequest P (BASE_URL ++ "auth/auth_check") None None "POST"
                HP I w) as Hq.
  fold (userAuthenticated BASE_URL) in Hq.
  destruct (exec net (userAuthenticated BASE_URL) w) as [[v | e'] w1]; cbn [fst snd] in *.
  - destruct (truthy v); [destruct (copied v)|]; cbn; intros H; inversion H; subst.
    exact HT.
  - intros H. inversion H; subst. apply Hq. reflexivity.
Qed.

Lemma Raises_register (P : Thrown -> Prop) username password userType :
  (forall e, transportFailure e -> P e) ->
  (if malformedParams (Some [("username", toLowerCase username); ("password", password);
                             ("user_type", userType)])
   then P uriMalformed else True) ->
  Raises net P (register BASE_URL username password userType).
Proof.
  intros HP HU w e. rewrite exec_register.
  pose proof (Raises_postAuthRequest P (BASE_URL ++ "auth/register")
                (Some [("username", toLowerCase username); ("password", password);
                       ("user_type", userType)]) None "POST" HP HU w) as Hq.
  destruct (exec net (postAuthRequest _ _ _ _) w) as [[v | e'] w1]; cbn [fst snd] in *.
  - discriminate.
  - exact (Hq e).
Qed.

End Failing.

Create HintDb raises.
#[export] Hint Resolve Raises_Return Raises_ret Raises_QueryParam Raises_user Raises_setUser
  Raises_friendlyFetch Raises_postAuthRequest Raises_postLoginCredentials
  Raises_intoStatus Raises_fetchUser Raises_register Raises_void : raises.
#[export] Hint Extern 1 (Raises _ _ (Monad.bind _ _)) =>
  apply Raises_mbind; [|intro] : raises.
#[export] Hint Extern 1 (Raises _ _ (try_catch _ _)) =>
  apply Raises_try_catch; intro : raises.
#[export] Hint Extern 2 (Raises _ _ (match ?x with _ => _ end)) => destruct x : raises.
#[export] Hint Extern 1 =>
  match goal with
  | |- if malformedParams _ then _ else _ =>
      unfold malformedParams; cbn [existsb snd];
      match goal with
      | |- True => exact I
      | |- if ?b then _ else _ => destruct b eqn:?; [|exact I]
      end
  end : raises.

Section Rejections.
Context {platform : Platform}.
Variable BASE_URL : string.
Variable net : Net.


End Rejections.

Section Edges.
Context {platform : Platform}.
Variable BASE_URL : string.
Variable net : Net.

(** X3.  A JSON body is returned whatever the HTTP status: when the transport
    succeeds and the body parses, [postAuthRequest] and
    [postLoginCredentials] resolve to the parsed body and never look at
    the [ok] flag, so an error status with a JSON body does not throw.
    (Parameters the encoder refuses are met before any of this: no
    request is made and the call rejects with the encoder's error.) *)
Theorem json_body_is_returned_whatever_the_status
    (url : string) (params headers : option (list (string * string))) (method : string)
    (w : World) (r : Response) (v : Value) :
  net (issued w) (formRequest url params headers method) = Responds r ->
  json r = Json v ->
  fst (exec net (postAuthRequest url params headers method) w)
  = (if malformedParams params then Rejected uriMalformed else Resolved v)
  /\ fst (exec net (postLoginCredentials url params headers method) w)
     = (if malformedParams params then Rejected uriMalformed else Resolved v)
  /\ fst (exec net (postAuthRequest url params headers method) w)
     = fst (exec (fun _ _ => Responds (mkResponse (negb (ok r)) (type r) (json r)))
              (postAuthRequest url params headers method) w).
Proof.
  intros Hnet Hjson.
  rewrite !exec_postAuthRequest, exec_postLoginCredentials. cbn zeta.
  destruct (malformedParams params); [auto|].
  rewrite Hnet. cbn. rewrite Hjson. auto.
Qed.

(** X4.  A registration whose transport fails starts no refresh: [register]
    rejects with the transport failure after its one request, without
    calling [fetchUser]; nothing is left pending and the cache is not
    touched.  (With a value the encoder refuses it rejects with the
    encoder's error before that request, and nothing has happened.) *)
Theorem failed_registration_starts_no_refresh
    (username password userType : string) (w : World) (e : Thrown) :
  let registration :=
    formRequest (BASE_URL ++ "auth/register")
      (Some [("username", toLowerCase username); ("password", password);
             ("user_type", userType)]) None "POST" in
  net (issued w) registration = Fails e ->
  exec net (register BASE_URL username password userType) w
  = (if existsb unpairedSurrogate [toLowerCase username; password; userType]
     then (Rejected uriMalformed, w)
     else (Rejected (networkFailure e), record (Fetched registration) w)).
Proof.
  cbn zeta. intros Hnet. rewrite exec_register, exec_postAuthRequest. cbn zeta.
  unfold malformedParams. cbn [existsb snd].
  destruct (_ || _); [reflexivity|].
  rewrite Hnet. reflexivity.
Qed.

(** X5.  [logout] does not invalidate the cache: after it, [user()] and
    [fetchUser()] still answer with the user cached before, and
    [fetchUser()] asks the server nothing. *)
Theorem logout_keeps_serving_the_cached_user (w : World) (u : StateMachine.JustfixUser) :
  _user w = Some u ->
  let after := snd (exec net (logout BASE_URL) w) in
  fst (exec net user after) = Resolved (Some u)
  /\ exec net (fetchUser BASE_URL) after = (Resolved (Some u), after).
Proof.
  intros Hu. cbn zeta.
  destruct (Quiet_postAuthRequest net (BASE_URL ++ "auth/logout") None None "POST" w)
    as (H & _). fold (logout BASE_URL) in H.
  rewrite exec_fetchUser. cbn [user exec fst]. rewrite H, Hu. auto.
Qed.

(** X6.  An authentication check whose body does not parse fills the cache all
    the same: [postAuthRequest] hands the response object to [fetchUser],
    the object is truthy, and the cached user has no email, no id, no
    subscriptions, and the [type] property of the response as its type. *)
Theorem unparseable_check_caches_a_blank_user (w : World) (r : Response) (m : string) :
  _user w = None ->
  net (issued w) (authCheckRequest BASE_URL) = Responds r ->
  json r = Unparseable m ->
  let blank := StateMachine.mkUser VUndefined VUndefined VUndefined (VStr (type r)) []
                 VUndefined in
  fst (exec net (fetchUser BASE_URL) w) = Resolved (Some blank)
  /\ _user (snd (exec net (fetchUser BASE_URL) w)) = Some blank.
Proof.
  intros Hu Hnet Hjson. cbn zeta.
  rewrite exec_fetchUser, Hu, exec_userAuthenticated, Hnet, Hjson. cbn. auto.
Qed.

Lemma spread_isObject (s : Value) : isObject (spread s) = true.
Proof. destruct s; reflexivity. Qed.

Lemma spread_object (s : Value) : isObject s = true -> spread s = s.
Proof. destruct s; cbn; intros H; try discriminate; reflexivity. Qed.

Lemma map_spread_objects (items : list Value) :
  forallb isObject items = true -> map spread items = items.
Proof.
  induction items as [| s rest IH]; cbn; [reflexivity|].
  intros H. apply andb_true_iff in H as (H1 & H2).
  rewrite (spread_object s H1), (IH H2). reflexivity.
Qed.

(** X7.  The subscriptions of the cached user: when the check lists them in an
    array, [fetchUser] stores as many as the array has, every one an
    object; an item that is an object is stored field for field (an item
    that is not, as the object of its own enumerable properties). *)
Theorem fetchUser_copies_each_subscription
    (w : World) (authCheck : Value) (items : list Value) :
  _user w = None ->
  fst (exec net (userAuthenticated BASE_URL) w) = Resolved authCheck ->
  truthy authCheck = true ->
  field authCheck "subscriptions" = VArr items ->
  exists u,
    _user (snd (exec net (fetchUser BASE_URL) w)) = Some u
    /\ length (StateMachine.subscriptions u) = length items
    /\ forallb isObject (StateMachine.subscriptions u) = true
    /\ (forallb isObject items = true -> StateMachine.subscriptions u = items).
Proof.
  intros Hu Hcheck Ht Hs.
  rewrite exec_fetchUser, Hu.
  destruct (exec net (userAuthenticated BASE_URL) w) as [s w1]. cbn [fst] in Hcheck.
  subst s. rewrite Ht. unfold copied. rewrite Hs. cbn [snd assign _user].
  eexists. split; [reflexivity|]. cbn [StateMachine.subscriptions userFrom].
  split; [apply length_map|]. split.
  - rewrite forallb_forall. intros x Hx. apply in_map_iff in Hx as (s & <- & _).
    apply spread_isObject.
  - apply map_spread_objects.
Qed.

End Edges.

Section Flows.
Context {platform : Platform}.
Variable BASE_URL : string.
Variable net : Net.

Lemma append_empty_r (s : string) : s ++ "" = s.
Proof. induction s as [| c s IH]; cbn; [reflexivity | rewrite IH; reflexivity]. Qed.

Lemma append_assoc (a b c : string) : (a ++ b) ++ c = a ++ (b ++ c).
Proof. induction a as [| x a IH]; cbn; [reflexivity | rewrite IH; reflexivity]. Qed.

Lemma intoStatus_translate (initial : StatusResponse) url params (w : World) :
  fst (exec net (intoStatus initial (postAuthRequest url params None "POST")) w)
  = Resolved (if malformedParams params
              then mkStatus (statusCode initial) (statusText initial) (Some malformedURI)
              else translate initial (net (issued w) (formRequest url params None "POST"))).
Proof.
  rewrite exec_intoStatus, exec_postAuthRequest. cbn zeta.
  destruct (malformedParams params); [reflexivity|].
  destruct (net (issued w) _) as [r | e]; cbn.
  - destruct (json r) as [[] | m]; reflexivity.
  - unfold networkFailure, catchInto. destruct (errorMessage e); reflexivity.
Qed.

Lemma intoStatus_requests (initial : StatusResponse) url params (w : World) :
  requests (trace (snd (exec net (intoStatus initial (postAuthRequest url params None "POST"))
                          w)))
  = if malformedParams params then requests (trace w)
    else formRequest url params None "POST" :: requests (trace w).
Proof.
  rewrite exec_intoStatus, exec_postAuthRequest. cbn zeta.
  destruct (malformedParams params); [reflexivity|].
  destruct (net (issued w) _) as [r | e]; reflexivity.
Qed.

Lemma verifyEmail_url (code utm : option string) :
  (let utm_source := match given utm with Some s => s | None => "" end in
   let url := BASE_URL ++ "auth/verify_email?code=" ++ interpolate code in
   if utm_source =? "" then url else url ++ "&utm_source=" ++ utm_source)
  = BASE_URL ++ "auth/verify_email?code=" ++ interpolate code
      ++ match given utm with Some s => "&utm_source=" ++ s | None => "" end.
Proof.
  cbn zeta. destruct utm as [s | ]; cbn [given].
  - destruct (s =? "") eqn:E.
    + cbn. rewrite append_empty_r. reflexivity.
    + rewrite E. rewrite append_assoc. cbn. reflexivity.
  - cbn. rewrite append_empty_r. reflexivity.
Qed.

Lemma exec_resetPasswordCheck (w : World) :
  exec net (resetPasswordCheck BASE_URL) w
  = exec net
      (intoStatus unknownReset
         (postAuthRequest
            (BASE_URL ++ "auth/reset_password/check?token="
               ++ interpolate (searchGet "token" (search w))) None None "POST")) w.
Proof. reflexivity. Qed.

Lemma exec_verifyEmail (w : World) :
  exec net (verifyEmail BASE_URL) w
  = exec net
      (intoStatus unknownVerify
         (postAuthRequest
            (BASE_URL ++ "auth/verify_email?code="
               ++ interpolate (searchGet "code" (search w))
               ++ match given (searchGet "utm_source" (search w)) with
                  | Some source => "&utm_source=" ++ source
                  | None => ""
                  end) None None "POST")) w.
Proof.
  unfold verifyEmail.
  change (@Monad.bind Prog Monad_Prog) with (@bind). cbn [bind exec].
  rewrite verifyEmail_url. reflexivity.
Qed.

(** X8.  The three status flows never throw and read the outcome of their one
    request by the same table ([translate]): [resetPasswordCheck] and
    [verifyEmail] behave like [resetPassword], with the token, the code
    and the UTM source taken from the page's query string.  In
    particular a body that does not parse, or a JSON body that is not an
    object, yields a result whose status code and text are [undefined],
    with no [error]; a [null] body keeps the code 500 and reports the
    [TypeError].  (A new password the encoder refuses is reported like a
    failed transport, with the encoder's message; no request is made
    then.) *)
Theorem status_flows_translate_by_one_table (token newPassword : string) (w : World) :
  let query name := searchGet name (search w) in
  let check :=
    formRequest (BASE_URL ++ "auth/reset_password/check?token=" ++ interpolate (query "token"))
      None None "POST" in
  let reset :=
    formRequest (BASE_URL ++ "auth/set_password?token=" ++ token)
      (Some [("new_password", newPassword)]) None "POST" in
  let verify :=
    formRequest
      (BASE_URL ++ "auth/verify_email?code=" ++ interpolate (query "code")
         ++ match given (query "utm_source") with
            | Some source => "&utm_source=" ++ source
            | None => ""
            end)
      None None "POST" in
  (fst (exec net (resetPasswordCheck BASE_URL) w)
     = Resolved (translate unknownReset (net (issued w) check))
   /\ requests (trace (snd (exec net (resetPasswordCheck BASE_URL) w)))
      = check :: requests (trace w))
  /\ (fst (exec net (resetPassword BASE_URL token newPassword) w)
        = Resolved (if unpairedSurrogate newPassword
                    then mkStatus (VNum 500) (VStr "") (Some malformedURI)
                    else translate unknownReset (net (issued w) reset))
      /\ requests (trace (snd (exec net (resetPassword BASE_URL token newPassword) w)))
         = (if unpairedSurrogate newPassword then requests (trace w)
            else reset :: requests (trace w)))
  /\ (fst (exec net (verifyEmail BASE_URL) w)
        = Resolved (translate unknownVerify (net (issued w) verify))
      /\ requests (trace (snd (exec net (verifyEmail BASE_URL) w)))
         = verify :: requests (trace w)).
Proof.
  cbn zeta. split; [|split].
  - rewrite exec_resetPasswordCheck.
    split; [exact (intoStatus_translate _ _ None w) | exact (intoStatus_requests _ _ None w)].
  - unfold resetPassword.
    rewrite intoStatus_translate, intoStatus_requests.
    unfold malformedParams. cbn [existsb snd]. rewrite orb_false_r.
    destruct (unpairedSurrogate newPassword); split; reflexivity.
  - rewrite exec_verifyEmail.
    split; [exact (intoStatus_translate _ _ None w) | exact (intoStatus_requests _ _ None w)].
Qed.

(** X9.  Missing and empty inputs.  On a page without a query string the token
    and the code go out as the text [null], and no UTM source is added;
    [resetPasswordRequest] without a username still makes its request
    and resolves to [true] when the transport succeeds.  An empty
    username or token is taken as absent. *)
Theorem missing_and_empty_inputs (w : World) :
  search w = [] ->
  let tokenRequest :=
    formRequest (BASE_URL ++ "auth/reset_password_request_with_token?token=null")
      None None "POST" in
  requests (trace (snd (exec net (resetPasswordRequest BASE_URL None) w)))
  = tokenRequest :: requests (trace w)
  /\ (forall r, net (issued w) tokenRequest = Responds r ->
        fst (exec net (resetPasswordRequest BASE_URL None) w) = Resolved true)
  /\ requests (trace (snd (exec net (resetPasswordCheck BASE_URL) w)))
     = formRequest (BASE_URL ++ "auth/reset_password/check?token=null") None None "POST"
         :: requests (trace w)
  /\ requests (trace (snd (exec net (verifyEmail BASE_URL) w)))
     = formRequest (BASE_URL ++ "auth/verify_email?code=null") None None "POST"
         :: requests (trace w)
  /\ exec net (resetPasswordRequest BASE_URL (Some "")) w
     = exec net (resetPasswordRequest BASE_URL None) w
  /\ requests (trace (snd (exec net (resendVerifyEmail BASE_URL (Some "")) w)))
     = formRequest (BASE_URL ++ "auth/resend_verification") None None "POST"
         :: requests (trace w).
Proof.
  intros Hs.
  pose proof (exec_resetPasswordCheck w) as Hc.
  pose proof (exec_verifyEmail w) as Hv.
  rewrite Hs in Hc, Hv. cbn [searchGet given interpolate] in Hc, Hv.
  rewrite append_empty_r in Hv.
  assert (Hrun : exec net (resetPasswordRequest BASE_URL None) w
                 = match net (issued w)
                           (formRequest
                              (BASE_URL ++ "auth/reset_password_request_with_token?token=null")
                              None None "POST") with
                   | Responds r =>
                       (Resolved true,
                        record (Logged r)
                          (record
                             (Fetched
                                (formRequest
                                   (BASE_URL
                                      ++ "auth/reset_password_request_with_token?token=null")
                                   None None "POST")) w))
                   | Fails e =>
                       (Resolved false,
                        record
                          (Fetched
                             (formRequest
                                (BASE_URL
                                   ++ "auth/reset_password_request_with_token?token=null")
                                None None "POST")) w)
                   end).
  { unfold resetPasswordRequest. change (@Monad.bind Prog Monad_Prog) with (@bind).
    rewrite exec_try_catch. cbn [given bind exec]. rewrite Hs. cbn [searchGet interpolate].
    rewrite exec_bind, exec_postAuthRequest. cbn zeta.
    destruct (net (issued w) _); reflexivity. }
  split; [|split; [|split; [|split; [|split]]]].
  - rewrite Hrun. destruct (net (issued w) _); reflexivity.
  - intros r Hr. rewrite Hrun, Hr. reflexivity.
  - rewrite Hc. exact (intoStatus_requests _ _ None w).
  - rewrite Hv. exact (intoStatus_requests _ _ None w).
  - reflexivity.
  - unfold resendVerifyEmail. change (@Monad.bind Prog Monad_Prog) with (@bind).
    rewrite exec_try_catch. cbn [given String.eqb]. rewrite exec_bind, exec_postAuthRequest.
    cbn zeta. clear Hrun Hc Hv. destruct (net (issued w) _); reflexivity.
Qed.

End Flows.


Section Interleavings.
Context {platform : Platform}.
Variable BASE_URL : string.
Variable net : Net.

Ltac open_fetchUser :=
  unfold fetchUser, void, userAuthenticated, postAuthRequest, encodeForm, buildBody,
    friendlyFetch, fetch, awaitJson, resume, setUser;
  change (@Monad.bind Prog Monad_Prog) with (@bind);
  change (@ret Prog Monad_Prog) with (@Return);
  unfold issued, authCheckRequest, formRequest in *;
  cbn [formBody] in *.

Ltac run_launch :=
  cbn [bind launch exec try_catch pending suspend record assign
       _user trace search requests writes length app fst snd];
  unfold suspend, record, assign;
  cbn [pending _user trace search requests writes length app fst snd].

Ltac store_user Ht Hc :=
  rewrite ?Ht; rewrite ?(prop_truthy _ _ Ht); run_launch;
  unfold copySubscriptions; unfold copied in Hc;
  match type of Hc with
  | context [field ?v "subscriptions"] =>
      destruct (field v "subscriptions"); inversion Hc; subst
  end;
  change (@ret Prog Monad_Prog) with (@Return); run_launch.



(** X12.  The refresh [register] starts is nobody's to catch: when the
    registration succeeds and the authentication check then fails,
    [register] has resolved with the registration payload, and the failure
    of the check surfaces as an unhandled rejection; the cache stays
    empty.  (With a value the encoder refuses there is no registration
    and no refresh: [register] rejects with the encoder's error.) *)
Theorem failed_refresh_is_an_unhandled_rejection
    (username password userType : string) (w : World) (r : Response) (e : Thrown) :
  let registration :=
    formRequest (BASE_URL ++ "auth/register")
      (Some [("username", toLowerCase username); ("password", password);
             ("user_type", userType)]) None "POST" in
  let run := exec net (register BASE_URL username password userType) w in
  _user w = None ->
  pending w = [] ->
  net (issued w) registration = Responds r ->
  net (S (issued w)) (authCheckRequest BASE_URL) = Fails e ->
  if existsb unpairedSurrogate [toLowerCase username; password; userType]
  then run = (Rejected uriMalformed, w)
  else
    fst run = Resolved (match json r with Json v => v | Unparseable _ => ofResponse r end)
    /\ trace (resume net (snd run)) = Unhandled (networkFailure e) :: trace (snd run)
    /\ _user (resume net (snd run)) = None
    /\ pending (resume net (snd run)) = [].
Proof.
  cbn zeta. intros Hu Hp Hr He.
  rewrite exec_register, exec_postAuthRequest. cbn zeta.
  unfold malformedParams. cbn [existsb snd].
  destruct (_ || _); [reflexivity|].
  rewrite Hr. cbn [fst snd].
  split; [reflexivity|].
  open_fetchUser. run_detached. rewrite Hu. run_detached.
  rewrite Hp. run_detached. unfold issued. run_detached. rewrite He. run_detached.
  unfold networkFailure. destruct (errorMessage e); run_detached; auto.
Qed.

End Interleavings.

Section Encoding.
Context {platform : Platform}.
Variable BASE_URL : string.
Variable net : Net.

Lemma occurrences_append (c : ascii) (a b : string) :
  occurrences c (a ++ b) = occurrences c a + occurrences c b.
Proof.
  induction a as [| x a IH]; cbn; [reflexivity|]. rewrite IH. lia.
Qed.

Lemma encoded_byte_has_no_separator (x : ascii) :
  occurrences "&" (if unreserved x then String x EmptyString else percent x) = 0
  /\ occurrences "=" (if unreserved x then String x EmptyString else percent x) = 0.
Proof.
  destruct x as [[] [] [] [] [] [] [] []]; split; vm_compute; reflexivity.
Qed.

Lemma encoded_has_no_separator (s : string) :
  occurrences "&" (percentEncode s) = 0
  /\ occurrences "=" (percentEncode s) = 0.
Proof.
  induction s as [| x s (IH1 & IH2)]; cbn [percentEncode]; [split; reflexivity|].
  rewrite !occurrences_append, IH1, IH2.
  destruct (encoded_byte_has_no_separator x) as (H1 & H2). rewrite H1, H2. auto.
Qed.

(** X13.  A value cannot add or split a parameter of the form body: as the
    values go through [encodeURIComponent], a body built from [n]
    parameters whose keys contain neither [&] nor [=] has exactly [n]
    equals signs and [n - 1] ampersands, whatever the values are.  (The
    body meant is the one the two wrappers build whenever the encoder
    lets them build one.) *)
Theorem form_values_cannot_add_parameters (params : list (string * string)) :
  (forall kv, In kv params ->
     occurrences "&" (fst kv) = 0 /\ occurrences "=" (fst kv) = 0) ->
  occurrences "=" (formBody (Some params)) = length params
  /\ occurrences "&" (formBody (Some params)) = length params - 1
  /\ (forall body, buildBody (Some params) = inr body -> body = formBody (Some params)).
Proof.
  intros Hkeys.
  assert (Hbody : forall body,
            buildBody (Some params) = inr body -> body = formBody (Some params)).
  { intros body Hb. rewrite buildBody_spec in Hb.
    destruct (malformedParams (Some params)); inversion Hb; reflexivity. }
  cut (occurrences "=" (formBody (Some params)) = length params
       /\ occurrences "&" (formBody (Some params)) = length params - 1).
  { intros (H1 & H2). auto. }
  clear Hbody. revert Hkeys.
  unfold formBody. induction params as [| kv rest IH]; intros Hk; [split; reflexivity|].
  assert (Hpart : occurrences "=" (fst kv ++ "=" ++ percentEncode (snd kv)) = 1
                  /\ occurrences "&" (fst kv ++ "=" ++ percentEncode (snd kv)) = 0).
  { destruct (Hk kv (or_introl eq_refl)) as (H1 & H2).
    destruct (encoded_has_no_separator (snd kv)) as (H3 & H4).
    rewrite !occurrences_append, H1, H2. cbn. rewrite H3, H4. auto. }
  destruct Hpart as (Hp1 & Hp2).
  destruct rest as [| kv' rest'].
  - change (join "&" (map (fun kv0 => fst kv0 ++ "=" ++ percentEncode (snd kv0)) [kv]))
      with (fst kv ++ "=" ++ percentEncode (snd kv)).
    rewrite Hp1, Hp2. auto.
  - destruct (IH (fun kv0 H => Hk kv0 (or_intror H))) as (IH1 & IH2).
    change (join "&" (map (fun kv0 => fst kv0 ++ "=" ++ percentEncode (snd kv0))
                        (kv :: kv' :: rest')))
      with ((fst kv ++ "=" ++ percentEncode (snd kv)) ++ "&"
              ++ join "&" (map (fun kv0 => fst kv0 ++ "=" ++ percentEncode (snd kv0))
                             (kv' :: rest'))).
    rewrite !(occurrences_append _ (fst kv ++ "=" ++ percentEncode (snd kv))).
    rewrite !(occurrences_append _ "&"%string).
    rewrite Hp1, Hp2, IH1, IH2. cbn. split; lia.
Qed.

Lemma given_toLowerCase (a b : string) :
  toLowerCase a = toLowerCase b ->
  match given (Some a), given (Some b) with
  | Some a', Some b' => a' = a /\ b' = b
  | None, None => True
  | _, _ => False
  end.
Proof.
  intros H.
  destruct a as [| c a], b as [| d b]; cbn [given String.eqb].
  - exact I.
  - rewrite (toLowerCase_ascii "" eq_refl) in H. symmetry in H.
    apply toLowerCase_nonempty in H. discriminate H.
  - rewrite (toLowerCase_ascii "" eq_refl) in H.
    apply toLowerCase_nonempty in H. discriminate H.
  - split; reflexivity.
Qed.

(** X14.  User names and e-mail addresses are compared without case: two
    spellings with the same lower-case form, as the platform's
    [toLowerCase] gives it, make [register], [login],
    [resetPasswordRequest], [updateEmail] and [isEmailAlreadyUsed] the
    very same call.  (Passwords are sent as typed.) *)
Theorem identifiers_differing_in_case_are_one (a b : string) :
  toLowerCase a = toLowerCase b ->
  (forall password userType,
     register BASE_URL a password userType = register BASE_URL b password userType)
  /\ (forall password, login BASE_URL a password = login BASE_URL b password)
  /\ resetPasswordRequest BASE_URL (Some a) = resetPasswordRequest BASE_URL (Some b)
  /\ updateEmail BASE_URL a = updateEmail BASE_URL b
  /\ isEmailAlreadyUsed BASE_URL a = isEmailAlreadyUsed BASE_URL b.
Proof.
  intros H. repeat split; intros;
    unfold register, login, updateEmail, isEmailAlreadyUsed; rewrite ?H; try reflexivity.
  unfold resetPasswordRequest. pose proof (given_toLowerCase a b H) as Hg.
  destruct (given (Some a)) as [a' | ], (given (Some b)) as [b' | ]; try contradiction.
  - destruct Hg as (-> & ->). rewrite H. reflexivity.
  - reflexivity.
Qed.

End Encoding.

(* --------------------------------------------------------------------- *)
(** *** The laws at concrete servers *)
(* --------------------------------------------------------------------- *)

Import Scenario.
#[local] Existing Instance asciiPlatform.

Lemma one_enveloped_request_witness :
  exists sent,
    requests (trace (snd (exec signedIn (invoke base (Call_buildingUnsubscribe "3012380016"))
                            fresh)))
    = (sent ++ [])%list
    /\ length sent <= 1
    /\ Forall (requestOf (Call_buildingUnsubscribe "3012380016")) sent.
Proof.
  destruct (every_call_sends_one_enveloped_request (platform := asciiPlatform) base signedIn
              (Call_buildingUnsubscribe "3012380016") fresh)
    as (sent & H1 & _ & H2 & H3).
  exists sent. split; [exact H1|]. split; [|exact H3].
  apply H2. intros username password userType H. discriminate H.
Defined.


Lemma json_body_witness :
  fst (exec rejected (postAuthRequest (base ++ "auth/change_password")
                        (Some [("current_password", "old"); ("new_password", "new")])
                        None "POST") fresh)
  = Resolved (VObj [("status_code", VNum 400); ("status_text", VStr "Invalid token")]).
Proof.
  exact (proj1 (json_body_is_returned_whatever_the_status (platform := asciiPlatform) rejected
                  (base ++ "auth/change_password")
                  (Some [("current_password", "old"); ("new_password", "new")])
                  None "POST" fresh
                  (mkResponse false "cors"
                     (Json (VObj [("status_code", VNum 400);
                                  ("status_text", VStr "Invalid token")])))
                  (VObj [("status_code", VNum 400); ("status_text", VStr "Invalid token")])
                  eq_refl eq_refl)).
Defined.

Lemma failed_registration_witness :
  fst (exec offline (register base "A@B.com" "secret" "TENANT") fresh)
  = Rejected (AnError NetworkError "Failed to fetch")
  /\ pending (snd (exec offline (register base "A@B.com" "secret" "TENANT") fresh)) = [].
Proof.
  rewrite (failed_registration_starts_no_refresh (platform := asciiPlatform) base offline "A@B.com" "secret" "TENANT"
             fresh (AnError TypeError "Failed to fetch") eq_refl).
  split; reflexivity.
Defined.

Lemma logout_witness :
  exec signedIn (fetchUser base) (snd (exec signedIn (logout base) tenantPage))
  = (Resolved (Some tenantUser), snd (exec signedIn (logout base) tenantPage)).
Proof.
  exact (proj2 (logout_keeps_serving_the_cached_user (platform := asciiPlatform) base signedIn tenantPage tenantUser
                  eq_refl)).
Defined.

Lemma blank_user_witness :
  _user (snd (exec gateway (fetchUser base) fresh))
  = Some (StateMachine.mkUser VUndefined VUndefined VUndefined (VStr "cors") [] VUndefined).
Proof.
  exact (proj2 (unparseable_check_caches_a_blank_user (platform := asciiPlatform) base gateway fresh errorPage
                  "Unexpected token < in JSON at position 0" eq_refl eq_refl eq_refl)).
Defined.

Lemma copies_witness :
  exists u,
    _user (snd (exec signedIn (fetchUser base) fresh)) = Some u
    /\ length (StateMachine.subscriptions u) = 1
    /\ forallb isObject (StateMachine.subscriptions u) = true
    /\ (true = true ->
        StateMachine.subscriptions u = [VObj [("bbl", VStr "3012380016")]]).
Proof.
  exact (fetchUser_copies_each_subscription (platform := asciiPlatform) base signedIn fresh tenant
           [VObj [("bbl", VStr "3012380016")]] eq_refl eq_refl eq_refl eq_refl).
Defined.

Lemma missing_inputs_witness :
  requests (trace (snd (exec signedIn (verifyEmail base) fresh)))
  = [formRequest (base ++ "auth/verify_email?code=null") None None "POST"]
  /\ fst (exec signedIn (resetPasswordRequest base None) fresh) = Resolved true.
Proof.
  destruct (missing_and_empty_inputs (platform := asciiPlatform) base signedIn fresh eq_refl)
    as (_ & H1 & _ & H2 & _).
  split; [exact H2|]. exact (H1 _ eq_refl).
Defined.



Lemma failed_refresh_witness :
  let run := exec dropsAfterFirst (register base "A@B.com" "secret" "TENANT") fresh in
  fst run = Resolved tenant
  /\ trace (resume dropsAfterFirst (snd run))
     = Unhandled (AnError NetworkError "Failed to fetch") :: trace (snd run)
  /\ _user (resume dropsAfterFirst (snd run)) = None
  /\ pending (resume dropsAfterFirst (snd run)) = [].
Proof.
  exact (failed_refresh_is_an_unhandled_rejection (platform := asciiPlatform) base dropsAfterFirst
           "A@B.com" "secret" "TENANT" fresh (mkResponse true "cors" (Json tenant))
           (AnError TypeError "Failed to fetch") eq_refl eq_refl eq_refl eq_refl).
Defined.

Lemma form_values_witness :
  formBody (Some [("username", "a@b.com"); ("password", "p&admin=1")])
  = "username=a%40b.com&password=p%26admin%3D1"
  /\ occurrences "=" (formBody (Some [("username", "a@b.com"); ("password", "p&admin=1")]))
     = 2
  /\ occurrences "&" (formBody (Some [("username", "a@b.com"); ("password", "p&admin=1")]))
     = 1.
Proof.
  split; [reflexivity|].
  destruct (form_values_cannot_add_parameters (platform := asciiPlatform)
              [("username", "a@b.com"); ("password", "p&admin=1")]) as (H1 & H2 & _).
  - intros kv [<- | [<- | []]]; split; reflexivity.
  - split; [exact H1 | exact H2].
Defined.

Lemma identifiers_witness :
  login base "A@B.com" "secret" = login base "a@b.COM" "secret"
  /\ isEmailAlreadyUsed base "A@B.com" = isEmailAlreadyUsed base "a@b.COM".
Proof.
  destruct (identifiers_differing_in_case_are_one (platform := asciiPlatform) base "A@B.com" "a@b.COM" eq_refl)
    as (_ & H1 & _ & _ & H2).
  split; [exact (H1 "secret") | exact H2].
Defined.

End Coverage.
